(** * KickData: the name resolver and the statistics normalizers

    A shallow embedding of [utils.py] (the API glue, the fuzzy player
    search and the reshaping of the nested API records) and of
    [calculate_performance] from [app.py], with the properties the
    specification states about them.

    Conventions.
    - A Python object decoded from JSON is a [value]; dictionaries are
      association lists in insertion order whose keys are the hashable
      scalars ([key]).  JSON numbers are the integers the API returns for
      counts.
    - A Python [str] is a [string]: one [ascii] per character (the code
      points below 256), so [len] is [String.length] and [s[1:]] drops the
      head.
    - A Python [float] is a [pyfloat], a double given by its sign, mantissa
      and exponent; [/] on integers rounds the quotient to the nearest one.
    - A raised exception is [Raise e] in [result]; code that talks to the
      network lives in [M], which also records every request sent. *)

From Stdlib Require Import ZArith List String Ascii Bool Arith Lia.
From Stdlib Require Import DecimalString.
Import ListNotations.
Open Scope string_scope.

Set Warnings "-register-all".

(** ** Python objects *)

Inductive key : Type :=
| KNone
| KBool (b : bool)
| KInt (n : Z)
| KStr (s : string).

Inductive value : Type :=
| VNone
| VBool (b : bool)
| VInt (n : Z)
| VStr (s : string)
| VList (l : list value)
| VDict (d : list (key * value)).

Coercion KStr : string >-> key.

Definition dict := list (key * value).

Inductive exn : Type :=
| KeyError (k : key)
| IndexError
| TypeError
| AttributeError
| ValueError
| ZeroDivisionError
| UnboundLocalError
| RequestException
| OverflowError.

Inductive result (A : Type) : Type :=
| Ok (a : A)
| Raise (e : exn).
Arguments Ok {A} a.
Arguments Raise {A} e.

Definition rbind {A B} (r : result A) (f : A -> result B) : result B :=
  match r with
  | Ok a => f a
  | Raise e => Raise e
  end.

Declare Scope py_scope.
Delimit Scope py_scope with py.
Notation "x <- r ;; k" := (rbind r (fun x => k))
  (at level 61, r at next level, right associativity) : py_scope.
Open Scope py_scope.

(** *** Keys and dictionaries *)

(** [True == 1] and [False == 0] in Python, and they hash alike. *)
Definition norm_key (k : key) : key :=
  match k with
  | KBool b => KInt (Z.b2z b)
  | _ => k
  end.

Definition raw_key_eqb (a b : key) : bool :=
  match a, b with
  | KNone, KNone => true
  | KBool x, KBool y => Bool.eqb x y
  | KInt x, KInt y => Z.eqb x y
  | KStr x, KStr y => String.eqb x y
  | _, _ => false
  end.

Definition key_eqb (a b : key) : bool := raw_key_eqb (norm_key a) (norm_key b).

(** [k in d] and [d.get(k)] share this lookup. *)
Fixpoint dict_find (d : dict) (k : key) : option value :=
  match d with
  | [] => None
  | (k', v) :: d' => if key_eqb k' k then Some v else dict_find d' k
  end.

(** [d[k] = v]: an existing key keeps its place and takes the new value, a
    new key goes to the end. *)
Fixpoint dict_set (d : dict) (k : key) (v : value) : dict :=
  match d with
  | [] => [(k, v)]
  | (k', v') :: d' =>
      if key_eqb k' k then (k', v) :: d' else (k', v') :: dict_set d' k v
  end.

Definition dict_keys (d : dict) : list key := map fst d.

(** The hashable objects are the scalars; a list or a dict used as a key
    raises [TypeError]. *)
Definition as_key (v : value) : result key :=
  match v with
  | VNone => Ok KNone
  | VBool b => Ok (KBool b)
  | VInt n => Ok (KInt n)
  | VStr s => Ok (KStr s)
  | VList _ | VDict _ => Raise TypeError
  end.

Definition of_key (k : key) : value :=
  match k with
  | KNone => VNone
  | KBool b => VBool b
  | KInt n => VInt n
  | KStr s => VStr s
  end.

(** *** Strings *)

Fixpoint string_nth (s : string) (n : nat) : option ascii :=
  match s, n with
  | EmptyString, _ => None
  | String c _, O => Some c
  | String _ s', S n' => string_nth s' n'
  end.

Fixpoint prefixb (p s : string) : bool :=
  match p, s with
  | EmptyString, _ => true
  | String a p', String b s' => Ascii.eqb a b && prefixb p' s'
  | String _ _, EmptyString => false
  end.

(** [p in s] on two strings. *)
Fixpoint substringb (p s : string) : bool :=
  prefixb p s ||
  match s with
  | EmptyString => false
  | String _ s' => substringb p s'
  end.

Definition chars (s : string) : list value :=
  map (fun c => VStr (String c EmptyString)) (list_ascii_of_string s).

(** [sep.join(l)]. *)
Fixpoint join (sep : string) (l : list string) : string :=
  match l with
  | [] => ""
  | [x] => x
  | x :: rest => x ++ sep ++ join sep rest
  end.

(** [s.split(" ")]: cuts at every single space, keeps empty pieces, and
    never returns an empty list. *)
Fixpoint split_space (s : string) : list string :=
  match s with
  | EmptyString => [""]
  | String c s' =>
      if Ascii.eqb c " "%char then "" :: split_space s'
      else match split_space s' with
           | [] => [String c ""]
           | w :: ws => String c w :: ws
           end
  end.

(** [str(n)] for an integer. *)
Definition str_of_Z (n : Z) : string := NilZero.string_of_int (Z.to_int n).

(** *** The object protocol: truth, subscripting, [get], [in], [len], iteration *)

Definition truthy (v : value) : bool :=
  match v with
  | VNone => false
  | VBool b => b
  | VInt n => negb (n =? 0)%Z
  | VStr s => negb (String.eqb s "")
  | VList l => match l with [] => false | _ => true end
  | VDict d => match d with [] => false | _ => true end
  end.

Definition is_none (v : value) : bool :=
  match v with VNone => true | _ => false end.

(** A sequence index: negative indices count from the end. *)
Definition seq_index (len : nat) (i : Z) : option nat :=
  if (0 <=? i)%Z then
    (if (i <? Z.of_nat len)%Z then Some (Z.to_nat i) else None)
  else
    (if (0 <=? Z.of_nat len + i)%Z then Some (Z.to_nat (Z.of_nat len + i)) else None).

Definition int_of_key (k : key) : option Z :=
  match k with
  | KInt i => Some i
  | KBool b => Some (Z.b2z b)
  | _ => None
  end.

(** [v[k]]. *)
Definition getitem (v : value) (k : key) : result value :=
  match v with
  | VDict d =>
      match dict_find d k with
      | Some x => Ok x
      | None => Raise (KeyError k)
      end
  | VList l =>
      match int_of_key k with
      | Some i =>
          match seq_index (List.length l) i with
          | Some n => match nth_error l n with Some x => Ok x | None => Raise IndexError end
          | None => Raise IndexError
          end
      | None => Raise TypeError
      end
  | VStr s =>
      match int_of_key k with
      | Some i =>
          match seq_index (String.length s) i with
          | Some n =>
              match string_nth s n with
              | Some c => Ok (VStr (String c EmptyString))
              | None => Raise IndexError
              end
          | None => Raise IndexError
          end
      | None => Raise TypeError
      end
  | VNone | VBool _ | VInt _ => Raise TypeError
  end.

(** [v[k1][k2]...]. *)
Fixpoint path (v : value) (ks : list key) : result value :=
  match ks with
  | [] => Ok v
  | k :: ks' => x <- getitem v k ;; path x ks'
  end.

(** [v.get(k, default)]: only dictionaries have the method. *)
Definition dict_get (v : value) (k : key) (default : value) : result value :=
  match v with
  | VDict d =>
      match dict_find d k with
      | Some x => Ok x
      | None => Ok default
      end
  | _ => Raise AttributeError
  end.

Definition is_str (s : string) (v : value) : bool :=
  match v with
  | VStr t => String.eqb s t
  | _ => false
  end.

(** [s in v] for a string [s]. *)
Definition contains_str (v : value) (s : string) : result bool :=
  match v with
  | VDict d => Ok (match dict_find d (KStr s) with Some _ => true | None => false end)
  | VList l => Ok (existsb (is_str s) l)
  | VStr t => Ok (substringb s t)
  | VNone | VBool _ | VInt _ => Raise TypeError
  end.

Definition py_len (v : value) : result nat :=
  match v with
  | VDict d => Ok (List.length d)
  | VList l => Ok (List.length l)
  | VStr s => Ok (String.length s)
  | VNone | VBool _ | VInt _ => Raise TypeError
  end.

Definition py_iter (v : value) : result (list value) :=
  match v with
  | VList l => Ok l
  | VDict d => Ok (map of_key (dict_keys d))
  | VStr s => Ok (chars s)
  | VNone | VBool _ | VInt _ => Raise TypeError
  end.

(** Integers for arithmetic and ordering; [bool] is a subtype of [int]. *)
Definition as_int (v : value) : result Z :=
  match v with
  | VInt n => Ok n
  | VBool b => Ok (Z.b2z b)
  | _ => Raise TypeError
  end.

(** ** The network

    [requests.get(url, headers=..., params=...)] followed by
    [response.status_code] and [response.json()].  The headers are the same
    constant pair on every call and are left out of [request]. *)

Record request : Type := mkRequest {
  url : string;
  params : list (string * value)
}.

Record response : Type := mkResponse {
  status_code : Z;
  json : result value
}.

(** A computation that sends requests: the requests sent, in order, and the
    outcome. *)
Definition M (A : Type) : Type := (list request * result A)%type.

Definition ret {A} (a : A) : M A := ([], Ok a).

Definition lift {A} (r : result A) : M A := ([], r).

Definition bind {A B} (m : M A) (f : A -> M B) : M B :=
  match m with
  | (sent, Ok a) => let (sent', r) := f a in ((sent ++ sent')%list, r)
  | (sent, Raise e) => (sent, Raise e)
  end.

Notation "x <-- m ;; k" := (bind m (fun x => k))
  (at level 61, m at next level, right associativity) : py_scope.

Definition requests_sent {A} (m : M A) : list request := fst m.
Definition outcome {A} (m : M A) : result A := snd m.

(** ** [Levenshtein.distance]

    Modelled from the library's contract: the number of single-character
    insertions, deletions and substitutions that turn one string into the
    other. *)
Fixpoint distance (s t : string) : nat :=
  match s with
  | EmptyString => String.length t
  | String a s' =>
      (fix inner (t : string) : nat :=
         match t with
         | EmptyString => String.length s
         | String b t' =>
             if Ascii.eqb a b then distance s' t'
             else S (Nat.min (distance s' t) (Nat.min (inner t') (distance s' t')))
         end) t
  end.

(** ** Built-in [min(iterable, key=f)]

    The key is computed for every element in order; an element replaces the
    current best only when its key is strictly smaller, so the first of
    several minimal elements is returned. *)
Section Min.
Variable f : value -> result nat.

Fixpoint min_from (best : value) (best_key : nat) (l : list value) : result value :=
  match l with
  | [] => Ok best
  | x :: l' =>
      k <- f x ;;
      if Nat.ltb k best_key then min_from x k l' else min_from best best_key l'
  end.

Definition py_min (iterable : value) : result value :=
  items <- py_iter iterable ;;
  match items with
  | [] => Raise ValueError
  | x :: l => k <- f x ;; min_from x k l
  end.
End Min.

(** ** utils.py *)

(** Static League ID list of the top ten leagues. *)
Definition LEAGUE_IDS : list (string * Z) :=
  [ ("Premier League", 39%Z);
    ("Bundesliga", 78%Z);
    ("La Liga (Spain)", 140%Z);
    ("Serie A", 135%Z);
    ("Ligue 1", 61%Z);
    ("Eredivisie", 88%Z);
    ("Serie A (Brazil)", 71%Z);
    ("Primeira Liga", 94%Z);
    ("Liga MX", 262%Z);
    ("Premier League (Russia)", 235%Z) ].

(** [LEAGUE_IDS.get(name)]. *)
Fixpoint league_get (table : list (string * Z)) (name : string) : option Z :=
  match table with
  | [] => None
  | (n, id) :: rest => if String.eqb n name then Some id else league_get rest name
  end.

Definition invalid_league_message (league_name : string) : string :=
  "Invalid league name: " ++ league_name ++ ". Please choose from: "
  ++ join ", " (map fst LEAGUE_IDS).

Definition players_url : string := "https://api-football-v1.p.rapidapi.com/v3/players".
Definition statistics_url : string := "https://api-football-v1.p.rapidapi.com/v3/teams/statistics".
Definition teams_url : string := "https://api-football-v1.p.rapidapi.com/v3/teams".

(** [x if x is not None else 0]. *)
Definition or_zero (x : value) : value := if is_none x then VInt 0 else x.

(** The reshaping half of [get_player_stats], in two pieces: the reads of
    the statistic and identity fields with the dictionary that is returned
    ([player_record]), and before them the choice of [player] and [stats]
    ([normalize_player]).  Reads happen in the order of the source, so the
    first failing one is the one that is raised. *)
Definition player_record (player stats : value) : result value :=
  total_goals <- path stats [KStr "goals"; KStr "total"] ;;
  goals_assists <- path stats [KStr "goals"; KStr "assists"] ;;
  let total_assists := or_zero goals_assists in
  total_shots <- path stats [KStr "shots"; KStr "total"] ;;
  shots_on_target <- path stats [KStr "shots"; KStr "on"] ;;
  dribbles_attempts <- path stats [KStr "dribbles"; KStr "attempts"] ;;
  dribbles_success <- path stats [KStr "dribbles"; KStr "success"] ;;
  key_passes <- path stats [KStr "passes"; KStr "key"] ;;
  passes <- getitem stats "passes" ;;
  pass_accuracy <- dict_get passes "accuracy" VNone ;;
  duels <- getitem stats "duels" ;;
  duels_won <- dict_get duels "won" VNone ;;
  tackles <- getitem stats "tackles" ;;
  tackles_total <- dict_get tackles "total" VNone ;;
  tackles_interceptions <- path stats [KStr "tackles"; KStr "interceptions"] ;;
  tackles_blocks <- path stats [KStr "tackles"; KStr "blocks"] ;;
  fouls_drawn <- path stats [KStr "fouls"; KStr "drawn"] ;;
  fouls_committed <- path stats [KStr "fouls"; KStr "committed"] ;;
  name <- getitem player "name" ;;
  photo <- getitem player "photo" ;;
  team_logo <- path stats [KStr "team"; KStr "logo"] ;;
  nationality <- getitem player "nationality" ;;
  team <- path stats [KStr "team"; KStr "id"] ;;
  Ok (VDict
        [ (KStr "Player",
            VDict [ (KStr "Name", name);
                    (KStr "Photo", photo);
                    (KStr "Team Logo", team_logo);
                    (KStr "Nationality", nationality);
                    (KStr "Team", team) ]);
          (KStr "Stats",
            VDict [ (KStr "Goals", total_goals);
                    (KStr "Assists", total_assists);
                    (KStr "Total Shots", total_shots);
                    (KStr "Shots on Target", shots_on_target);
                    (KStr "Dribble Attempts", dribbles_attempts);
                    (KStr "Dribble Successes", dribbles_success);
                    (KStr "Key Passes", key_passes);
                    (KStr "Pass Success Rate", or_zero pass_accuracy);
                    (KStr "Duels Won", or_zero duels_won);
                    (KStr "Total Tackles", or_zero tackles_total);
                    (KStr "Interceptions", or_zero tackles_interceptions);
                    (KStr "Blocks", or_zero tackles_blocks);
                    (KStr "Fouls Drawn", or_zero fouls_drawn);
                    (KStr "Fouls Committed", or_zero fouls_committed) ]) ]).

(** [player = player_data['player']; stats = player_data['statistics'][0]]
    and then the reads above. *)
Definition normalize_player (player_data : value) : result value :=
  player <- getitem player_data "player" ;;
  stats <- path player_data [KStr "statistics"; KInt 0] ;;
  player_record player stats.

(** The lineups loop of [get_team_stats]:
    [for i in range(len(stats['lineups'])): lineup_info[...] = ...],
    each round reading [stats['lineups'][i]] anew. *)
Fixpoint lineups_loop (stats : value) (indices : list nat) (lineup_info : dict)
  : result dict :=
  match indices with
  | [] => Ok lineup_info
  | i :: rest =>
      formation_deployed <- path stats [KStr "lineups"; KInt (Z.of_nat i); KStr "formation"] ;;
      times_deployed <- path stats [KStr "lineups"; KInt (Z.of_nat i); KStr "played"] ;;
      k <- as_key formation_deployed ;;
      lineups_loop stats rest (dict_set lineup_info k times_deployed)
  end.

Definition reduce_lineups (stats : value) : result dict :=
  lineups <- getitem stats "lineups" ;;
  n <- py_len lineups ;;
  lineups_loop stats (seq 0 n) [].

(** The reshaping half of [get_team_stats]: everything from
    [club = club_data['team']] to the returned dictionary, in source
    order. *)
Definition normalize_team (club_data : value) : result value :=
  club <- getitem club_data "team" ;;
  let stats := club_data in
  total_played <- path stats [KStr "fixtures"; KStr "played"; KStr "total"] ;;
  total_wins_home <- path stats [KStr "fixtures"; KStr "wins"; KStr "home"] ;;
  total_wins_away <- path stats [KStr "fixtures"; KStr "wins"; KStr "away"] ;;
  total_wins <- path stats [KStr "fixtures"; KStr "wins"; KStr "total"] ;;
  total_draws_home <- path stats [KStr "fixtures"; KStr "draws"; KStr "home"] ;;
  total_draws_away <- path stats [KStr "fixtures"; KStr "draws"; KStr "away"] ;;
  total_draws <- path stats [KStr "fixtures"; KStr "draws"; KStr "total"] ;;
  total_loses_home <- path stats [KStr "fixtures"; KStr "loses"; KStr "home"] ;;
  total_loses_away <- path stats [KStr "fixtures"; KStr "loses"; KStr "away"] ;;
  total_loses <- path stats [KStr "fixtures"; KStr "loses"; KStr "total"] ;;
  club_form <- path stats [KStr "form"] ;;
  total_goals_scored_home <- path stats [KStr "goals"; KStr "for"; KStr "total"; KStr "home"] ;;
  total_goals_scored_away <- path stats [KStr "goals"; KStr "for"; KStr "total"; KStr "away"] ;;
  total_goals_scored <- path stats [KStr "goals"; KStr "for"; KStr "total"; KStr "total"] ;;
  goals_scored_average_home <- path stats [KStr "goals"; KStr "for"; KStr "average"; KStr "home"] ;;
  goals_scored_average_away <- path stats [KStr "goals"; KStr "for"; KStr "average"; KStr "away"] ;;
  goals_scored_average_total <- path stats [KStr "goals"; KStr "for"; KStr "average"; KStr "total"] ;;
  total_goals_conceded_home <- path stats [KStr "goals"; KStr "against"; KStr "total"; KStr "home"] ;;
  total_goals_conceded_away <- path stats [KStr "goals"; KStr "against"; KStr "total"; KStr "away"] ;;
  total_goals_conceded <- path stats [KStr "goals"; KStr "against"; KStr "total"; KStr "total"] ;;
  goals_conceded_average_home <- path stats [KStr "goals"; KStr "against"; KStr "average"; KStr "home"] ;;
  goals_conceded_average_away <- path stats [KStr "goals"; KStr "against"; KStr "average"; KStr "away"] ;;
  goals_conceded_average_total <- path stats [KStr "goals"; KStr "against"; KStr "average"; KStr "total"] ;;
  longest_win_streak <- path stats [KStr "biggest"; KStr "streak"; KStr "wins"] ;;
  longest_draw_streak <- path stats [KStr "biggest"; KStr "streak"; KStr "draws"] ;;
  longest_lose_streak <- path stats [KStr "biggest"; KStr "streak"; KStr "loses"] ;;
  biggest_win_home <- path stats [KStr "biggest"; KStr "wins"; KStr "home"] ;;
  biggest_win_away <- path stats [KStr "biggest"; KStr "wins"; KStr "away"] ;;
  biggest_lose_home <- path stats [KStr "biggest"; KStr "loses"; KStr "home"] ;;
  biggest_lose_away <- path stats [KStr "biggest"; KStr "loses"; KStr "away"] ;;
  total_clean_sheets_home <- path stats [KStr "clean_sheet"; KStr "home"] ;;
  total_clean_sheets_away <- path stats [KStr "clean_sheet"; KStr "away"] ;;
  total_clean_sheets <- path stats [KStr "clean_sheet"; KStr "total"] ;;
  failed_to_score_home <- path stats [KStr "failed_to_score"; KStr "home"] ;;
  failed_to_score_away <- path stats [KStr "failed_to_score"; KStr "away"] ;;
  failed_to_score_total <- path stats [KStr "failed_to_score"; KStr "total"] ;;
  lineup_info <- reduce_lineups stats ;;
  club_name <- getitem club "name" ;;
  club_logo <- getitem club "logo" ;;
  Ok (VDict
        [ (KStr "Club",
            VDict [ (KStr "Name", club_name);
                    (KStr "Logo", club_logo) ]);
          (KStr "Stats",
            VDict [ (KStr "Total Games", total_played);
                    (KStr "Total Wins Home", total_wins_home);
                    (KStr "Total Wins Away", total_wins_away);
                    (KStr "Total Wins", total_wins);
                    (KStr "Total Draws Home", total_draws_home);
                    (KStr "Total Draws Away", total_draws_away);
                    (KStr "Total Draws", total_draws);
                    (KStr "Total Losses Home", total_loses_home);
                    (KStr "Total Losses Away", total_loses_away);
                    (KStr "Total Losses", total_loses);
                    (KStr "Club Form", club_form);
                    (KStr "Total Home Goals Scored", total_goals_scored_home);
                    (KStr "Total Away Goals Scored", total_goals_scored_away);
                    (KStr "Total Goals Scored", total_goals_scored);
                    (KStr "Average Home Goals Scored", goals_scored_average_home);
                    (KStr "Average Away Goals Scored", goals_scored_average_away);
                    (KStr "Average Goals Scored", goals_scored_average_total);
                    (KStr "Total Home Goals Conceded", total_goals_conceded_home);
                    (KStr "Total Away Goals Conceded", total_goals_conceded_away);
                    (KStr "Total Goals Conceded", total_goals_conceded);
                    (KStr "Average Home Goals Conceded", goals_conceded_average_home);
                    (KStr "Average Away Goals Conceded", goals_conceded_average_away);
                    (KStr "Average Goals Conceded", goals_conceded_average_total);
                    (KStr "Longest Win Streak", longest_win_streak);
                    (KStr "Longest Draw Streak", longest_draw_streak);
                    (KStr "Longest Lose Streak", longest_lose_streak);
                    (KStr "Biggest Home Win", biggest_win_home);
                    (KStr "Biggest Away Win", biggest_win_away);
                    (KStr "Biggest Home Loss", biggest_lose_home);
                    (KStr "Biggest Away Loss", biggest_lose_away);
                    (KStr "Total Home Clean Sheets", total_clean_sheets_home);
                    (KStr "Total Away Clean Sheets", total_clean_sheets_away);
                    (KStr "Total Clean Sheets", total_clean_sheets);
                    (KStr "Times Failed to Score at Home", failed_to_score_home);
                    (KStr "Times Failed to Score Away", failed_to_score_away);
                    (KStr "Total Times Failed to Score", failed_to_score_total);
                    (KStr "Lineups", VDict lineup_info) ]) ]).

(** *** The functions that talk to the API *)

Section Api.
(** The external service: what [requests.get] gives back for a request
    ([Raise] when the call itself fails). *)
Variable requests_get : request -> result response.

(** [unidecode.unidecode]: transliteration of a string to ASCII. *)
Variable unidecode : string -> string.

Definition http_get (req : request) : M response := ([req], requests_get req).

(** [unidecode(x)] raises on anything that is not a string. *)
Definition py_unidecode (x : value) : result string :=
  match x with
  | VStr s => Ok (unidecode s)
  | _ => Raise AttributeError
  end.

(** [lambda player: distance(search_name, unidecode(player['player']['name']))]. *)
Definition name_distance (search_name : string) (player : value) : result nat :=
  name <- path player [KStr "player"; KStr "name"] ;;
  ascii_name <- py_unidecode name ;;
  Ok (distance search_name ascii_name).

Definition players_request (season search_name : string) (league_id : Z) : request :=
  mkRequest players_url
    [ ("season", VStr season);
      ("search", VStr search_name);
      ("league", VStr (str_of_Z league_id)) ].

(** [search_name[1:]]. *)
Definition trim (search_name : string) : string :=
  match search_name with
  | EmptyString => EmptyString
  | String _ rest => rest
  end.

(** One round of the [while] loop up to the trimming: [Some best_match]
    when the round returns, [None] when it falls through to
    [search_name = search_name[1:]]. *)
Definition search_round (season : string) (league_id : Z) (search_name : string)
  : M (option value) :=
  response <-- http_get (players_request season search_name league_id) ;;
  response_data <-- lift (json response) ;;
  found <-- lift (dict_get response_data "response" VNone) ;;
  if truthy found then
    players_data <-- lift (getitem response_data "response") ;;
    best_match <-- lift (py_min (name_distance search_name) players_data) ;;
    ret (Some best_match)
  else
    ret None.

(** The [while len(search_name) > 0] loop; Python's [None] is [VNone]. *)
Fixpoint search_loop (season : string) (league_id : Z) (search_name : string)
  : M value :=
  match search_name with
  | EmptyString => ret VNone
  | String _ rest =>
      round <-- search_round season league_id search_name ;;
      match round with
      | Some best_match => ret best_match
      | None => search_loop season league_id rest
      end
  end.

Definition get_player_stats_from_api (player_name season : string) (league_id : Z)
  : M value :=
  let search_name := unidecode player_name in
  search_loop season league_id search_name.

Definition get_club_stats_from_api (club_id : value) (season : string) (league_id : Z)
  : M value :=
  response <-- http_get (mkRequest statistics_url
                           [ ("team", club_id);
                             ("season", VStr season);
                             ("league", VStr (str_of_Z league_id)) ]) ;;
  response_data <-- lift (json response) ;;
  found <-- lift (dict_get response_data "response" VNone) ;;
  if truthy found then
    lift (getitem response_data "response")
  else
    ret VNone.

(** [x > 0] for an object [x]. *)
Definition gt_zero (x : value) : result bool :=
  n <- as_int x ;; Ok (0 <? n)%Z.

Definition get_club_id (club_name club_country : string) : M value :=
  response <-- http_get (mkRequest teams_url
                           [ ("name", VStr club_name);
                             ("country", VStr club_country) ]) ;;
  if (status_code response =? 200)%Z then
    response_json <-- lift (json response) ;;
    results <-- lift (getitem response_json "results") ;;
    positive <-- lift (gt_zero results) ;;
    if positive then
      lift (path response_json [KStr "response"; KInt 0; KStr "team"; KStr "id"])
    else
      ret VNone
  else
    ret VNone.

Definition no_stats_message (who season : string) : string :=
  "No stats found for " ++ who ++ " in the " ++ season ++ " season.".

(** The [if len(names) == 1: ... elif len(names) >= 2: ...] that binds
    [first_name] and [last_name]; with neither branch taken the names stay
    unbound. *)
Definition first_and_last (names : list string) : result (string * string) :=
  match names with
  | [] => Raise UnboundLocalError
  | [only] => Ok ("", only)
  | _ => Ok (join " " (removelast names), last names "")
  end.

Definition get_player_stats (player_full_name season league_name : string) : M value :=
  match league_get LEAGUE_IDS league_name with
  | None => ret (VStr (invalid_league_message league_name))
  | Some league_id =>
      if (league_id =? 0)%Z then ret (VStr (invalid_league_message league_name))
      else
        let names := split_space player_full_name in
        first_last <-- lift (first_and_last names) ;;
        let (first_name, last_name) := first_last : string * string in
        player_data <-- get_player_stats_from_api (first_name ++ " " ++ last_name)
                          season league_id ;;
        player_data <-- (if is_none player_data
                         then get_player_stats_from_api last_name season league_id
                         else ret player_data) ;;
        if is_none player_data then
          ret (VStr (no_stats_message player_full_name season))
        else
          lift (normalize_player player_data)
  end.

Definition get_team_stats (club_name club_country season league_name : string)
  : M value :=
  match league_get LEAGUE_IDS league_name with
  | None => ret (VStr (invalid_league_message league_name))
  | Some league_id =>
      if (league_id =? 0)%Z then ret (VStr (invalid_league_message league_name))
      else
        club_id <-- get_club_id club_name club_country ;;
        if is_none club_id then
          ret (VStr ("No club found for " ++ club_name ++ " in " ++ club_country ++ "."))
        else
          club_data <-- get_club_stats_from_api club_id season league_id ;;
          has_team <-- lift (contains_str club_data "team") ;;
          if negb has_team then
            ret (VStr "Unexpected API response format.")
          else if is_none club_data then
            ret (VStr (no_stats_message club_name season))
          else
            lift (normalize_team club_data)
  end.
End Api.

(** *** Comparison of objects, for the paging test *)

(** [a == b]: numbers by value ([True == 1]), strings and lists
    element-wise, dictionaries as mappings. *)
Fixpoint py_eq (a b : value) : bool :=
  match a, b with
  | VNone, VNone => true
  | VBool x, VBool y => Bool.eqb x y
  | VBool x, VInt y => (Z.b2z x =? y)%Z
  | VInt x, VBool y => (x =? Z.b2z y)%Z
  | VInt x, VInt y => (x =? y)%Z
  | VStr x, VStr y => String.eqb x y
  | VList l1, VList l2 =>
      (fix all_eq (l1 l2 : list value) : bool :=
         match l1, l2 with
         | [], [] => true
         | x :: r1, y :: r2 => py_eq x y && all_eq r1 r2
         | _, _ => false
         end) l1 l2
  | VDict d1, VDict d2 =>
      Nat.eqb (List.length d1) (List.length d2) &&
      (fix all_in (d : list (key * value)) : bool :=
         match d with
         | [] => true
         | (k, v) :: r =>
             match dict_find d2 k with
             | Some v' => py_eq v v' && all_in r
             | None => false
             end
         end) d1
  | _, _ => false
  end.

(** [a < b]: numbers by value, strings and lists lexicographically;
    [None], dictionaries and mixed operands raise [TypeError]. *)
Fixpoint py_lt (a b : value) : result bool :=
  match a, b with
  | VBool x, VBool y => Ok (Z.b2z x <? Z.b2z y)%Z
  | VBool x, VInt y => Ok (Z.b2z x <? y)%Z
  | VInt x, VBool y => Ok (x <? Z.b2z y)%Z
  | VInt x, VInt y => Ok (x <? y)%Z
  | VStr x, VStr y => Ok (String.ltb x y)
  | VList l1, VList l2 =>
      (fix first_difference (l1 l2 : list value) : result bool :=
         match l1, l2 with
         | [], [] => Ok false
         | [], _ :: _ => Ok true
         | _ :: _, [] => Ok false
         | x :: r1, y :: r2 =>
             if py_eq x y then first_difference r1 r2 else py_lt x y
         end) l1 l2
  | _, _ => Raise TypeError
  end.

(** [players.extend(more)]: the attribute exists on lists only and is
    looked up before the argument is evaluated ([has_extend]); the argument
    may be any iterable. *)
Definition has_extend (players : value) : result (list value) :=
  match players with
  | VList l => Ok l
  | _ => Raise AttributeError
  end.

Definition extend (players : list value) (more : value) : result value :=
  items <- py_iter more ;;
  Ok (VList (players ++ items)%list).

(** *** The roster and the logo *)

Section Roster.
Variable requests_get : request -> result response.

Definition roster_request (club_id : value) (season : string) (league_id page : Z)
  : request :=
  mkRequest players_url
    [ ("season", VStr season);
      ("team", club_id);
      ("league", VStr (str_of_Z league_id));
      ("page", VStr (str_of_Z page)) ].

(** One call of [get_players_from_api] up to the recursive call: [None]
    when it returns [None], otherwise the players of the page and whether
    [paging.current < paging.total]. *)
Definition roster_page (club_id : value) (season : string) (league_id page : Z)
  : M (option (value * bool)) :=
  response <-- http_get requests_get (roster_request club_id season league_id page) ;;
  response_data <-- lift (json response) ;;
  found <-- lift (dict_get response_data "response" VNone) ;;
  if truthy found then
    players <-- lift (getitem response_data "response") ;;
    paging <-- lift (dict_get response_data "paging" (VDict [])) ;;
    current <-- lift (dict_get paging "current" VNone) ;;
    paging' <-- lift (dict_get response_data "paging" (VDict [])) ;;
    total <-- lift (dict_get paging' "total" VNone) ;;
    more <-- lift (py_lt current total) ;;
    ret (Some (players, more))
  else
    ret None.

(** [get_players_from_api(club_id, season, league_id, page)].  The calls
    nest, one level per page; [depth] is how many levels the interpreter
    still allows, and the result is [None] when they run out. *)
Fixpoint get_players_from_api (depth : nat) (club_id : value) (season : string)
         (league_id page : Z) : option (M value) :=
  match depth with
  | O => None
  | S depth' =>
      match roster_page club_id season league_id page with
      | (sent, Raise e) => Some (sent, Raise e)
      | (sent, Ok None) => Some (sent, Ok VNone)
      | (sent, Ok (Some (players, false))) => Some (sent, Ok players)
      | (sent, Ok (Some (players, true))) =>
          match has_extend players with
          | Raise e => Some (sent, Raise e)
          | Ok own =>
              match get_players_from_api depth' club_id season league_id (page + 1) with
              | None => None
              | Some (sent', Raise e) => Some ((sent ++ sent')%list, Raise e)
              | Some (sent', Ok more) => Some ((sent ++ sent')%list, extend own more)
              end
          end
      end
  end.

(** Just a quick API call to get the club logo using the club_name and
    club_country. *)
Definition get_club_logo (club_name club_country : string) : M value :=
  response <-- http_get requests_get
                 (mkRequest teams_url
                    [ ("name", VStr club_name);
                      ("country", VStr club_country) ]) ;;
  if (status_code response =? 200)%Z then
    response_json <-- lift (json response) ;;
    results <-- lift (getitem response_json "results") ;;
    positive <-- lift (gt_zero results) ;;
    if positive then
      lift (path response_json [KStr "response"; KInt 0; KStr "team"; KStr "logo"])
    else
      ret VNone
  else
    ret VNone.
End Roster.

(** ** app.py *)

(** A [float]: the double [(-1) ^ negative * mantissa * 2 ^ exponent].
    Doubles are kept in one form: a zero is [mantissa = 0, exponent = 0]; a
    subnormal has [exponent = -1074] and [mantissa < 2 ^ 52]; any other has
    [2 ^ 52 <= mantissa < 2 ^ 53]. *)
Record pyfloat : Type := mkFloat {
  negative : bool;
  mantissa : Z;
  exponent : Z
}.

(** [n / d] rounded to the nearest integer, a tie going to the even one. *)
Definition round_half_even (n d : Z) : Z :=
  let k := (n / d)%Z in
  let r := (n mod d)%Z in
  if (2 * r <? d)%Z then k
  else if (d <? 2 * r)%Z then (k + 1)%Z
  else if Z.even k then k else (k + 1)%Z.

(** [2 ^ e] for [e >= 0] and 1 below: a quotient [n / d] is compared with
    [2 ^ e] as [n * pow2 (- e)] with [d * pow2 e]. *)
Definition pow2 (e : Z) : Z := (2 ^ Z.max 0 e)%Z.

Definition below_power (n d e : Z) : bool :=
  (n * pow2 (- e) <? d * pow2 e)%Z.

(** The [e] with [2 ^ e <= n / d < 2 ^ (e + 1)], for positive [n] and [d]. *)
Definition binade (n d : Z) : Z :=
  let e := (Z.log2 n - Z.log2 d)%Z in
  if below_power n d e then (e - 1)%Z else e.

(** [a / b] for integers and [b <> 0], as CPython computes it: the quotient
    correctly rounded to a double (53 bits, ties to even, subnormals below
    [2 ^ -1022], the sign kept on a zero), and [OverflowError] when the
    rounded quotient is [2 ^ 1024] or more. *)
Definition nearest_double (a b : Z) : result pyfloat :=
  let sign := xorb (a <? 0)%Z (b <? 0)%Z in
  let n := Z.abs a in
  let d := Z.abs b in
  if (n =? 0)%Z then Ok (mkFloat sign 0 0)
  else
    let q := (Z.max (binade n d) (-1022) - 52)%Z in
    let m := round_half_even (n * pow2 (- q)) (d * pow2 q) in
    if (m =? 0)%Z then Ok (mkFloat sign 0 0)
    else
      let m' := if (m =? 2 ^ 53)%Z then (2 ^ 52)%Z else m in
      let q' := if (m =? 2 ^ 53)%Z then (q + 1)%Z else q in
      if (971 <? q')%Z then Raise OverflowError else Ok (mkFloat sign m' q').

(** [a / b] on integers: [ZeroDivisionError] for a zero divisor, otherwise
    the nearest double. *)
Definition true_div (a b : Z) : result pyfloat :=
  if (b =? 0)%Z then Raise ZeroDivisionError
  else nearest_double a b.

(** Calculation of team performance.  The [season] argument is unused. *)
Definition calculate_performance (stats_dict : value) (season : string)
  : result pyfloat :=
  total_wins <- dict_get stats_dict "Total Wins" (VInt 0) ;;
  total_losses <- dict_get stats_dict "Total Losses" (VInt 0) ;;
  total_goals_scored <- dict_get stats_dict "Total Goals Scored" (VInt 0) ;;
  w <- as_int total_wins ;;
  l <- as_int total_losses ;;
  g <- as_int total_goals_scored ;;
  total_games <- dict_get stats_dict "Total Games" (VInt 1) ;;
  d <- as_int total_games ;;
  true_div (w - l + g) d.

(** * Vocabulary of the properties *)

Definition stat (record : value) (name : string) : result value :=
  path record [KStr "Stats"; KStr name].




(** The closed set of statistic names of a player record. *)
Inductive statistic : Type :=
| Goals | Assists | TotalShots | ShotsOnTarget | DribbleAttempts
| DribbleSuccesses | KeyPasses | PassSuccessRate | DuelsWon | TotalTackles
| Interceptions | Blocks | FoulsDrawn | FoulsCommitted.

Definition all_statistics : list statistic :=
  [ Goals; Assists; TotalShots; ShotsOnTarget; DribbleAttempts;
    DribbleSuccesses; KeyPasses; PassSuccessRate; DuelsWon; TotalTackles;
    Interceptions; Blocks; FoulsDrawn; FoulsCommitted ].

Definition statistic_name (s : statistic) : string :=
  match s with
  | Goals => "Goals"
  | Assists => "Assists"
  | TotalShots => "Total Shots"
  | ShotsOnTarget => "Shots on Target"
  | DribbleAttempts => "Dribble Attempts"
  | DribbleSuccesses => "Dribble Successes"
  | KeyPasses => "Key Passes"
  | PassSuccessRate => "Pass Success Rate"
  | DuelsWon => "Duels Won"
  | TotalTackles => "Total Tackles"
  | Interceptions => "Interceptions"
  | Blocks => "Blocks"
  | FoulsDrawn => "Fouls Drawn"
  | FoulsCommitted => "Fouls Committed"
  end.

(** Where [get_player_stats] reads each statistic from (lines 185-198). *)
Definition source_of (stats : value) (s : statistic) : result value :=
  match s with
  | Goals => path stats [KStr "goals"; KStr "total"]
  | Assists => path stats [KStr "goals"; KStr "assists"]
  | TotalShots => path stats [KStr "shots"; KStr "total"]
  | ShotsOnTarget => path stats [KStr "shots"; KStr "on"]
  | DribbleAttempts => path stats [KStr "dribbles"; KStr "attempts"]
  | DribbleSuccesses => path stats [KStr "dribbles"; KStr "success"]
  | KeyPasses => path stats [KStr "passes"; KStr "key"]
  | PassSuccessRate => g <- getitem stats "passes" ;; dict_get g "accuracy" VNone
  | DuelsWon => g <- getitem stats "duels" ;; dict_get g "won" VNone
  | TotalTackles => g <- getitem stats "tackles" ;; dict_get g "total" VNone
  | Interceptions => path stats [KStr "tackles"; KStr "interceptions"]
  | Blocks => path stats [KStr "tackles"; KStr "blocks"]
  | FoulsDrawn => path stats [KStr "fouls"; KStr "drawn"]
  | FoulsCommitted => path stats [KStr "fouls"; KStr "committed"]
  end.

(** The statistics guarded by [... if ... is not None else 0]. *)
Definition defaulted (s : statistic) : bool :=
  match s with
  | Goals | TotalShots | ShotsOnTarget | DribbleAttempts | DribbleSuccesses
  | KeyPasses => false
  | Assists | PassSuccessRate | DuelsWon | TotalTackles | Interceptions
  | Blocks | FoulsDrawn | FoulsCommitted => true
  end.

Definition numeric (v : value) : Prop := exists n, v = VInt n.
Definition numeric_or_null (v : value) : Prop := v = VNone \/ numeric v.

(** The loop seen on the entries themselves. *)
Fixpoint lineups_fold (entries : list value) (lineup_info : dict) : result dict :=
  match entries with
  | [] => Ok lineup_info
  | e :: rest =>
      formation_deployed <- getitem e "formation" ;;
      times_deployed <- getitem e "played" ;;
      k <- as_key formation_deployed ;;
      lineups_fold rest (dict_set lineup_info k times_deployed)
  end.

(** The count a formation label ends up with according to the overwrite
    policy: the [played] of the last entry of the list that carries the
    label. *)
Fixpoint last_played (entries : list value) (label : key) : option value :=
  match entries with
  | [] => None
  | e :: rest =>
      match last_played rest label with
      | Some times => Some times
      | None =>
          match (f <- getitem e "formation" ;; as_key f), getitem e "played" with
          | Ok k, Ok times => if key_eqb k label then Some times else None
          | _, _ => None
          end
      end
  end.

(** An entry the loop can process: a formation that can be a key, and a
    count. *)
Definition lineup_entry (e : value) : Prop :=
  exists f k times,
    getitem e "formation" = Ok f /\ as_key f = Ok k /\ getitem e "played" = Ok times.

(** The first of the closest candidates under a key function. *)
Section Closest.
Variable f : value -> result nat.

Definition above (bound : nat) (c : value) : Prop := exists k, f c = Ok k /\ bound < k.
Definition at_least (bound : nat) (c : value) : Prop := exists k, f c = Ok k /\ bound <= k.

(** [best] is the element of [pool] with the least key, and the earliest
    of those: everything before it is strictly farther, nothing after it
    is nearer. *)
Definition first_min (pool : list value) (best : value) : Prop :=
  exists before after k,
    pool = (before ++ best :: after)%list /\
    f best = Ok k /\
    Forall (above k) before /\
    Forall (at_least k) after.

End Closest.

(** The rounds of the search loop. *)
Section Rounds.
Variable requests_get : request -> result response.
Variable season : string.
Variable league_id : Z.

(** What a round gets for a search string:
    [requests.get(...).json().get('response')]. *)
Definition fetched (search_name : string) : result value :=
  response <- requests_get (players_request season search_name league_id) ;;
  response_data <- json response ;;
  dict_get response_data "response" VNone.

Definition query (search_name : string) : request :=
  players_request season search_name league_id.

(** An empty fetch: nothing, or nothing that counts as true. *)
Definition fetch_empty (search_name : string) : Prop :=
  exists found, fetched search_name = Ok found /\ truthy found = false.

(** Every round before [search_name] is reached comes back empty:
    [skipped] is what has been trimmed by then. *)
Definition all_empty_before (skipped search_name : string) : Prop :=
  forall dropped rest,
    skipped = dropped ++ rest -> rest <> "" -> fetch_empty (rest ++ search_name).


(** [s[1:]] taken [k] times. *)
Definition trimmed (k : nat) (search_name : string) : string :=
  Nat.iter k trim search_name.

End Rounds.






(** Every round of the search comes back empty. *)
Definition no_match (requests_get : request -> result response) (season : string)
           (league_id : Z) (search_name : string) : Prop :=
  forall k, k < String.length search_name ->
            fetch_empty requests_get season league_id (trimmed k search_name).

(** [" " in s]. *)
Fixpoint contains_space (s : string) : bool :=
  match s with
  | EmptyString => false
  | String c s' => Ascii.eqb c " " || contains_space s'
  end.

(** The input as typed when it has a space in it, with a space in front of
    it otherwise. *)
Definition typed_or_spaced (player_full_name : string) : string :=
  if contains_space player_full_name then player_full_name
  else String " " player_full_name.

(** Where [get_team_stats] reads each named statistic from (lines 252-293
    and 308-343); [Lineups] is the reduced mapping and is not in the
    table. *)
Definition team_sources : list (string * list key) :=
  [
    ("Total Games", [KStr "fixtures"; KStr "played"; KStr "total"]);
    ("Total Wins Home", [KStr "fixtures"; KStr "wins"; KStr "home"]);
    ("Total Wins Away", [KStr "fixtures"; KStr "wins"; KStr "away"]);
    ("Total Wins", [KStr "fixtures"; KStr "wins"; KStr "total"]);
    ("Total Draws Home", [KStr "fixtures"; KStr "draws"; KStr "home"]);
    ("Total Draws Away", [KStr "fixtures"; KStr "draws"; KStr "away"]);
    ("Total Draws", [KStr "fixtures"; KStr "draws"; KStr "total"]);
    ("Total Losses Home", [KStr "fixtures"; KStr "loses"; KStr "home"]);
    ("Total Losses Away", [KStr "fixtures"; KStr "loses"; KStr "away"]);
    ("Total Losses", [KStr "fixtures"; KStr "loses"; KStr "total"]);
    ("Club Form", [KStr "form"]);
    ("Total Home Goals Scored", [KStr "goals"; KStr "for"; KStr "total"; KStr "home"]);
    ("Total Away Goals Scored", [KStr "goals"; KStr "for"; KStr "total"; KStr "away"]);
    ("Total Goals Scored", [KStr "goals"; KStr "for"; KStr "total"; KStr "total"]);
    ("Average Home Goals Scored", [KStr "goals"; KStr "for"; KStr "average"; KStr "home"]);
    ("Average Away Goals Scored", [KStr "goals"; KStr "for"; KStr "average"; KStr "away"]);
    ("Average Goals Scored", [KStr "goals"; KStr "for"; KStr "average"; KStr "total"]);
    ("Total Home Goals Conceded", [KStr "goals"; KStr "against"; KStr "total"; KStr "home"]);
    ("Total Away Goals Conceded", [KStr "goals"; KStr "against"; KStr "total"; KStr "away"]);
    ("Total Goals Conceded", [KStr "goals"; KStr "against"; KStr "total"; KStr "total"]);
    ("Average Home Goals Conceded", [KStr "goals"; KStr "against"; KStr "average"; KStr "home"]);
    ("Average Away Goals Conceded", [KStr "goals"; KStr "against"; KStr "average"; KStr "away"]);
    ("Average Goals Conceded", [KStr "goals"; KStr "against"; KStr "average"; KStr "total"]);
    ("Longest Win Streak", [KStr "biggest"; KStr "streak"; KStr "wins"]);
    ("Longest Draw Streak", [KStr "biggest"; KStr "streak"; KStr "draws"]);
    ("Longest Lose Streak", [KStr "biggest"; KStr "streak"; KStr "loses"]);
    ("Biggest Home Win", [KStr "biggest"; KStr "wins"; KStr "home"]);
    ("Biggest Away Win", [KStr "biggest"; KStr "wins"; KStr "away"]);
    ("Biggest Home Loss", [KStr "biggest"; KStr "loses"; KStr "home"]);
    ("Biggest Away Loss", [KStr "biggest"; KStr "loses"; KStr "away"]);
    ("Total Home Clean Sheets", [KStr "clean_sheet"; KStr "home"]);
    ("Total Away Clean Sheets", [KStr "clean_sheet"; KStr "away"]);
    ("Total Clean Sheets", [KStr "clean_sheet"; KStr "total"]);
    ("Times Failed to Score at Home", [KStr "failed_to_score"; KStr "home"]);
    ("Times Failed to Score Away", [KStr "failed_to_score"; KStr "away"]);
    ("Total Times Failed to Score", [KStr "failed_to_score"; KStr "total"]) ].

(** The identity fields of a player record and where they are read from:
    [true] for the [player] object, [false] for [statistics[0]]. *)
Definition identity_sources : list (string * (bool * list key)) :=
  [ ("Name", (true, [KStr "name"]));
    ("Photo", (true, [KStr "photo"]));
    ("Team Logo", (false, [KStr "team"; KStr "logo"]));
    ("Nationality", (true, [KStr "nationality"]));
    ("Team", (false, [KStr "team"; KStr "id"])) ].

(** No two keys of a dictionary are equal. *)
Fixpoint unique_keys (d : dict) : Prop :=
  match d with
  | [] => True
  | (k, _) :: rest => dict_find rest k = None /\ unique_keys rest
  end.

(** The request of [get_club_id] and of [get_club_logo]. *)
Definition club_request (club_name club_country : string) : request :=
  mkRequest teams_url [ ("name", VStr club_name); ("country", VStr club_country) ].

(** The request of [get_club_stats_from_api]. *)
Definition statistics_request (club_id : value) (season : string) (league_id : Z)
  : request :=
  mkRequest statistics_url
    [ ("team", club_id); ("season", VStr season); ("league", VStr (str_of_Z league_id)) ].

(** The roster pages as the API sends them. *)
Section Pages.
Variable requests_get : request -> result response.
Variable club_id : value.
Variable season : string.
Variable league_id : Z.

(** The answer to page [page] holds the non-empty list [players] and says
    it is page [current] of [total]. *)
Definition roster_page_is (page current total : Z) (players : list value) : Prop :=
  exists resp body paging,
    requests_get (roster_request club_id season league_id page) = Ok resp /\
    json resp = Ok (VDict body) /\
    dict_find body "response" = Some (VList players) /\
    players <> [] /\
    dict_find body "paging" = Some (VDict paging) /\
    dict_find paging "current" = Some (VInt current) /\
    dict_find paging "total" = Some (VInt total).

(** Consecutive pages, numbered from [page], each counting itself out of
    [total]. *)
Fixpoint pages_from (page total : Z) (pages : list (list value)) : Prop :=
  match pages with
  | [] => True
  | players :: rest => roster_page_is page page total players /\
                       pages_from (page + 1) total rest
  end.

(** The answer to page [page] promises more pages. *)
Definition roster_page_more (page : Z) : Prop :=
  exists current total players,
    roster_page_is page current total players /\ (current < total)%Z.

(** The answer to page [page] has nothing under [response]. *)
Definition roster_page_empty (page : Z) : Prop :=
  exists resp body found,
    requests_get (roster_request club_id season league_id page) = Ok resp /\
    json resp = Ok body /\
    dict_get body "response" VNone = Ok found /\
    truthy found = false.
End Pages.

(** [2 ^ e <= n / d]. *)
Definition at_least_power (n d e : Z) : Prop :=
  (d * pow2 e <= n * pow2 (- e))%Z.

(** [c * 2 ^ e <= n / d]. *)
Definition scaled (c n d e : Z) : Prop :=
  (c * (d * pow2 e) <= n * pow2 (- e))%Z.

(** The double [f] is within half a unit in its last place of [|a / b|]:
    [| |a / b| - mantissa * 2 ^ exponent | <= 2 ^ exponent / 2]. *)
Definition close_to (a b : Z) (f : pyfloat) : Prop :=
  (2 * Z.abs (mantissa f * (Z.abs b * pow2 (exponent f))
              - Z.abs a * pow2 (- exponent f))
   <= Z.abs b * pow2 (exponent f))%Z.

(** [f] is a double that approximates [a / b] as a correctly rounded
    division does: the sign of the quotient, at most 53 bits, an exponent
    in the range of the doubles, all 53 bits used above the subnormal
    range, within half a unit in the last place, and a zero only for a
    quotient of at most [2 ^ -1075]. *)
Definition correctly_rounded (a b : Z) (f : pyfloat) : Prop :=
  negative f = xorb (a <? 0)%Z (b <? 0)%Z /\
  (0 <= mantissa f < 2 ^ 53)%Z /\
  (-1074 <= exponent f <= 971)%Z /\
  (mantissa f <> 0%Z -> (-1074 < exponent f)%Z -> (2 ^ 52 <= mantissa f)%Z) /\
  (mantissa f <> 0%Z -> close_to a b f) /\
  (mantissa f = 0%Z -> (2 ^ 1075 * Z.abs a <= Z.abs b)%Z).

(** [stats_dict.get(name, default)] as a number: the default for an absent
    key, the value of an integer (or boolean) field, nothing for any other
    object. *)
Definition field_or (d : dict) (name : string) (default : Z) : option Z :=
  match dict_find d name with
  | None => Some default
  | Some (VInt n) => Some n
  | Some (VBool b) => Some (Z.b2z b)
  | Some _ => None
  end.

(** * Sample data *)

(** A player candidate in the shape the API documents, with the fields the
    properties below vary left open. *)
Definition sample_statistics (goals_total assists fouls_drawn : value) : value :=
  VDict
    [ (KStr "team", VDict [ (KStr "id", VInt 33);
                            (KStr "name", VStr "Manchester United");
                            (KStr "logo", VStr "https://media.api-sports.io/football/teams/33.png") ]);
      (KStr "goals", VDict [ (KStr "total", goals_total);
                             (KStr "conceded", VInt 0);
                             (KStr "assists", assists);
                             (KStr "saves", VNone) ]);
      (KStr "shots", VDict [ (KStr "total", VInt 60); (KStr "on", VInt 31) ]);
      (KStr "passes", VDict [ (KStr "total", VInt 902);
                              (KStr "key", VInt 44);
                              (KStr "accuracy", VInt 78) ]);
      (KStr "tackles", VDict [ (KStr "total", VInt 12);
                               (KStr "blocks", VNone);
                               (KStr "interceptions", VInt 5) ]);
      (KStr "duels", VDict [ (KStr "total", VInt 301); (KStr "won", VInt 140) ]);
      (KStr "dribbles", VDict [ (KStr "attempts", VInt 88);
                                (KStr "success", VInt 45);
                                (KStr "past", VNone) ]);
      (KStr "fouls", VDict [ (KStr "drawn", fouls_drawn); (KStr "committed", VInt 20) ]) ].

Definition sample_player (name : string) : value :=
  VDict [ (KStr "id", VInt 909);
          (KStr "name", VStr name);
          (KStr "nationality", VStr "England");
          (KStr "photo", VStr "https://media.api-sports.io/football/players/909.png") ].

Definition sample_candidate (name : string) (statistics : list value) : value :=
  VDict [ (KStr "player", sample_player name);
          (KStr "statistics", VList statistics) ].

Definition rashford : value := sample_player "Marcus Rashford".

(** Statistics whose [assists] is null. *)
Definition stats_without_assists : value := sample_statistics (VInt 17) VNone (VInt 30).


(** Statistics whose [goals.total] is null, as the API sends for a player
    who has not played. *)
Definition stats_without_goals : value := sample_statistics VNone VNone VNone.


Definition lineup (formation : string) (played : Z) : value :=
  VDict [ (KStr "formation", VStr formation); (KStr "played", VInt played) ].

Definition sample_lineups : list value :=
  [ lineup "4-3-3" 10; lineup "4-4-2" 5; lineup "4-3-3" 3 ].

Definition home_away_total (home away total : value) : value :=
  VDict [ (KStr "home", home); (KStr "away", away); (KStr "total", total) ].

(** A team-statistics candidate in the shape the API documents. *)
Definition sample_club_data (played wins loses goals_for : Z) (lineups : list value)
  : value :=
  VDict
    [ (KStr "league", VDict [ (KStr "id", VInt 39); (KStr "name", VStr "Premier League") ]);
      (KStr "team", VDict [ (KStr "id", VInt 33);
                            (KStr "name", VStr "Manchester United");
                            (KStr "logo", VStr "https://media.api-sports.io/football/teams/33.png") ]);
      (KStr "form", VStr "WDLWW");
      (KStr "fixtures",
        VDict [ (KStr "played", home_away_total (VInt 0) (VInt 0) (VInt played));
                (KStr "wins", home_away_total (VInt 0) (VInt 0) (VInt wins));
                (KStr "draws", home_away_total (VInt 0) (VInt 0) (VInt 0));
                (KStr "loses", home_away_total (VInt 0) (VInt 0) (VInt loses)) ]);
      (KStr "goals",
        VDict [ (KStr "for",
                  VDict [ (KStr "total", home_away_total (VInt 0) (VInt 0) (VInt goals_for));
                          (KStr "average",
                            home_away_total (VStr "0.0") (VStr "0.0") (VStr "0.0")) ]);
                (KStr "against",
                  VDict [ (KStr "total", home_away_total (VInt 0) (VInt 0) (VInt 0));
                          (KStr "average",
                            home_away_total (VStr "0.0") (VStr "0.0") (VStr "0.0")) ]) ]);
      (KStr "biggest",
        VDict [ (KStr "streak",
                  VDict [ (KStr "wins", VInt 0); (KStr "draws", VInt 0); (KStr "loses", VInt 0) ]);
                (KStr "wins", VDict [ (KStr "home", VNone); (KStr "away", VNone) ]);
                (KStr "loses", VDict [ (KStr "home", VNone); (KStr "away", VNone) ]) ]);
      (KStr "clean_sheet", home_away_total (VInt 0) (VInt 0) (VInt 0));
      (KStr "failed_to_score", home_away_total (VInt 0) (VInt 0) (VInt 0));
      (KStr "lineups", VList lineups) ].

Definition spec_example_stats : value :=
  VDict [ (KStr "Total Wins", VInt 10);
          (KStr "Total Losses", VInt 2);
          (KStr "Total Goals Scored", VInt 30);
          (KStr "Total Games", VInt 0) ].

(** The API answers of a club that exists but has no statistics for the
    season: the teams endpoint finds it, the statistics endpoint sends an
    empty [response]. *)
Definition network_without_statistics (req : request) : result response :=
  if String.eqb (url req) teams_url then
    Ok (mkResponse 200
          (Ok (VDict [ (KStr "get", VStr "teams");
                       (KStr "results", VInt 1);
                       (KStr "response",
                         VList [ VDict [ (KStr "team",
                                           VDict [ (KStr "id", VInt 33);
                                                   (KStr "name", VStr "Manchester United");
                                                   (KStr "country", VStr "England") ]) ] ]) ])))
  else
    Ok (mkResponse 200
          (Ok (VDict [ (KStr "get", VStr "teams/statistics");
                       (KStr "results", VInt 0);
                       (KStr "response", VList []) ]))).

(** A fragment of the Unidecode table: ASCII is kept, and the Latin-1
    letters below are transliterated as the library does.  Characters
    outside the fragment are dropped. *)
Definition unidecode_char (c : ascii) : string :=
  let n := nat_of_ascii c in
  if Nat.ltb n 128 then String c ""
  else if Nat.eqb n 223 then "ss"        (* sharp s *)
  else if Nat.eqb n 228 then "a"         (* a with diaeresis *)
  else if Nat.eqb n 233 then "e"         (* e with acute *)
  else if Nat.eqb n 241 then "n"         (* n with tilde *)
  else if Nat.eqb n 246 then "o"         (* o with diaeresis *)
  else if Nat.eqb n 252 then "u"         (* u with diaeresis *)
  else "".

Fixpoint unidecode_sample (s : string) : string :=
  match s with
  | EmptyString => ""
  | String c s' => unidecode_char c ++ unidecode_sample s'
  end.

(** "Müller", with its second letter the code point 252. *)
Definition muller_accented : string := String "M" (String "252" "ller").

(** An API that knows three players for the search "Muller" and nobody
    otherwise. *)
Definition muller_pool : list value :=
  [ sample_candidate ("T. " ++ muller_accented) [];
    sample_candidate "Muller" [];
    sample_candidate muller_accented [] ].

Definition network_muller (req : request) : result response :=
  match req with
  | mkRequest _ [ _; (_, VStr search); _ ] =>
      if String.eqb search "Muller"
      then Ok (mkResponse 200 (Ok (VDict [ (KStr "response", VList muller_pool) ])))
      else Ok (mkResponse 200 (Ok (VDict [ (KStr "response", VList []) ])))
  | _ => Ok (mkResponse 200 (Ok (VDict [ (KStr "response", VList []) ])))
  end.



(** "Groß", with its last letter the code point 223. *)
Definition gross : string := String "G" (String "r" (String "o" (String "223" ""))).

(** An API that never finds anybody. *)
Definition network_empty (req : request) : result response :=
  Ok (mkResponse 200 (Ok (VDict [ (KStr "results", VInt 0); (KStr "response", VList []) ]))).

(** An API that cannot be reached. *)
Definition network_down (req : request) : result response := Raise RequestException.

(** An API that knows Manchester United and has its statistics. *)
Definition teams_answer : value :=
  VDict [ (KStr "get", VStr "teams");
          (KStr "results", VInt 1);
          (KStr "response",
            VList [ VDict [ (KStr "team",
                              VDict [ (KStr "id", VInt 33);
                                      (KStr "name", VStr "Manchester United");
                                      (KStr "country", VStr "England");
                                      (KStr "logo", VStr "https://media.api-sports.io/football/teams/33.png") ]) ] ]) ].

Definition network_team (req : request) : result response :=
  if String.eqb (url req) teams_url then Ok (mkResponse 200 (Ok teams_answer))
  else Ok (mkResponse 200
             (Ok (VDict [ (KStr "get", VStr "teams/statistics");
                          (KStr "response", sample_club_data 18 10 2 30 sample_lineups) ]))).

(** An API whose statistics answer has no [team] in it. *)
Definition network_odd_statistics (req : request) : result response :=
  if String.eqb (url req) teams_url then Ok (mkResponse 200 (Ok teams_answer))
  else Ok (mkResponse 200
             (Ok (VDict [ (KStr "response", VDict [ (KStr "form", VStr "WWL") ]) ]))).

(** An API that answers every request with a server error and a body that
    is not JSON. *)
Definition network_server_error (req : request) : result response :=
  Ok (mkResponse 500 (Raise ValueError)).

(** A roster in two pages. *)
Definition roster_answer (current total : Z) (players : list value) : value :=
  VDict [ (KStr "get", VStr "players");
          (KStr "paging", VDict [ (KStr "current", VInt current); (KStr "total", VInt total) ]);
          (KStr "response", VList players) ].

Definition page_of (req : request) : value :=
  match params req with
  | [ _; _; _; (_, page) ] => page
  | _ => VNone
  end.

Definition network_roster (req : request) : result response :=
  if is_str "1" (page_of req) then
    Ok (mkResponse 200 (Ok (roster_answer 1 2
          [ sample_candidate "Marcus Rashford" []; sample_candidate "Bruno Fernandes" [] ])))
  else if is_str "2" (page_of req) then
    Ok (mkResponse 200 (Ok (roster_answer 2 2 [ sample_candidate "Luke Shaw" [] ])))
  else
    Ok (mkResponse 200 (Ok (roster_answer 1 1 []))).

(** An API that answers every page as page 1 of 2. *)
Definition network_endless (req : request) : result response :=
  Ok (mkResponse 200 (Ok (roster_answer 1 2 [ sample_candidate "Marcus Rashford" [] ]))).

(** An API whose first page promises a second one that is empty. *)
Definition network_short (req : request) : result response :=
  if is_str "1" (page_of req) then
    Ok (mkResponse 200 (Ok (roster_answer 1 2 [ sample_candidate "Marcus Rashford" [] ])))
  else
    Ok (mkResponse 200 (Ok (roster_answer 2 2 []))).

(** An API that sends players without any paging information. *)
Definition network_no_paging (req : request) : result response :=
  Ok (mkResponse 200
        (Ok (VDict [ (KStr "response", VList [ sample_candidate "Marcus Rashford" [] ]) ]))).

(** * Properties *)

(** ** Keys and dictionaries *)

Lemma raw_key_eqb_eq (a b : key) : raw_key_eqb a b = true <-> a = b.
Proof.
  destruct a, b; simpl; split; intro H; try discriminate; try reflexivity.
  - apply Bool.eqb_prop in H. now subst.
  - injection H as ->. apply Bool.eqb_reflx.
  - apply Z.eqb_eq in H. now subst.
  - injection H as ->. apply Z.eqb_refl.
  - apply String.eqb_eq in H. now subst.
  - injection H as ->. apply String.eqb_refl.
Qed.

Lemma key_eqb_norm (a b : key) : key_eqb a b = true <-> norm_key a = norm_key b.
Proof. apply raw_key_eqb_eq. Qed.

Lemma key_eqb_refl (a : key) : key_eqb a a = true.
Proof. now apply key_eqb_norm. Qed.

Lemma key_eqb_sym (a b : key) : key_eqb a b = key_eqb b a.
Proof.
  destruct (key_eqb a b) eqn:E, (key_eqb b a) eqn:F; try reflexivity.
  - apply key_eqb_norm in E. symmetry in E. apply key_eqb_norm in E. congruence.
  - apply key_eqb_norm in F. symmetry in F. apply key_eqb_norm in F. congruence.
Qed.

Lemma key_eqb_trans_l (a b c : key) :
  key_eqb a b = true -> key_eqb a c = key_eqb b c.
Proof.
  intro H. apply key_eqb_norm in H. unfold key_eqb. now rewrite H.
Qed.

(** Reading back after [d[k] = v]. *)
Lemma dict_find_set (d : dict) (k k' : key) (v : value) :
  dict_find (dict_set d k v) k' =
  if key_eqb k k' then Some v else dict_find d k'.
Proof.
  induction d as [|[k0 v0] d IH]; simpl.
  - reflexivity.
  - destruct (key_eqb k0 k) eqn:E; simpl.
    + rewrite (key_eqb_trans_l _ _ k' E).
      now destruct (key_eqb k k').
    + destruct (key_eqb k0 k') eqn:F.
      * destruct (key_eqb k k') eqn:G; [|reflexivity].
        rewrite key_eqb_sym, (key_eqb_trans_l _ _ k0 G), key_eqb_sym in E.
        congruence.
      * apply IH.
Qed.

(** ** The player normalizer *)

(** What a successful run of [player_record] has read. *)
Ltac run_reads H :=
  repeat match type of H with
         | rbind ?x _ = Ok _ =>
             let v := fresh "v" in
             let E := fresh "E" in
             destruct x as [v|] eqn:E; cbn [rbind] in H; [|discriminate H]
         end.

Lemma rbind_ok {A B} (r : result A) (f : A -> result B) (b : B) :
  rbind r f = Ok b -> exists a, r = Ok a /\ f a = Ok b.
Proof. destruct r as [a|e]; [eauto | discriminate]. Qed.

(** The same on long chains, one inversion per read. *)
Ltac step_reads H :=
  repeat (let v := fresh "v" in
          let E := fresh "E" in
          apply rbind_ok in H; destruct H as [v [E H]]).

Lemma path2 (v : value) (a b : key) (g : value) :
  getitem v a = Ok g -> path v [a; b] = getitem g b.
Proof. intro H. simpl. rewrite H. simpl. now destruct (getitem g b). Qed.


Lemma or_zero_numeric (v : value) : numeric_or_null v -> numeric (or_zero v).
Proof.
  intros [->|[n ->]]; [exists 0%Z | exists n]; reflexivity.
Qed.

Lemma or_zero_not_none (v : value) : or_zero v <> VNone.
Proof. destruct v; discriminate. Qed.


(** Every statistic of a record is its source object, passed through
    [or_zero] exactly when it is a defaulted one. *)
Lemma player_record_stat (player stats record : value) (s : statistic) :
  player_record player stats = Ok record ->
  exists v, source_of stats s = Ok v /\
            stat record (statistic_name s) = Ok (if defaulted s then or_zero v else v).
Proof.
  intro H. unfold player_record in H. run_reads H.
  injection H as <-.
  destruct s; cbn [source_of defaulted statistic_name];
    try (eexists; split; [eassumption | reflexivity]).
  all: match goal with
       | G : getitem ?st ?k = Ok _ |- context [getitem ?st ?k] => rewrite G
       end;
       cbn [rbind]; eexists; split; [eassumption | reflexivity].
Qed.

Lemma player_record_keys (player stats record : value) :
  player_record player stats = Ok record ->
  exists d, getitem record "Stats" = Ok (VDict d) /\
            dict_keys d = map (fun s => KStr (statistic_name s)) all_statistics.
Proof.
  intro H. unfold player_record in H. run_reads H.
  injection H as <-. eexists; split; reflexivity.
Qed.





(** C7, as stated, fails: a null [goals.total] is carried over, so the
    record maps [Goals] to [None], which is neither a number nor 0. *)
Lemma goals_null_stays_null :
  source_of stats_without_goals Goals = Ok VNone /\
  (record <- player_record rashford stats_without_goals ;;
   stat record (statistic_name Goals)) = Ok VNone /\
  ~ numeric VNone.
Proof.
  split; [reflexivity | split; [reflexivity |]].
  intros [n H]. discriminate H.
Qed.

(** C7 (amended).  Every record has exactly the fourteen statistic keys.
    Each value is its source object, with null replaced by 0 for the eight
    defaulted statistics only: those are never null, and are numbers
    whenever the source is a number or null; the other six are the source
    object unchanged, null included. *)
Theorem player_record_closed_statistics (player stats record : value) :
  player_record player stats = Ok record ->
  (exists d, getitem record "Stats" = Ok (VDict d) /\
             dict_keys d = map (fun s => KStr (statistic_name s)) all_statistics) /\
  (forall s, exists v,
      source_of stats s = Ok v /\
      stat record (statistic_name s) = Ok (if defaulted s then or_zero v else v)) /\
  (forall s, defaulted s = true ->
             exists v, stat record (statistic_name s) = Ok v /\ v <> VNone) /\
  (forall s v, defaulted s = true -> source_of stats s = Ok v -> numeric_or_null v ->
               exists n, stat record (statistic_name s) = Ok (VInt n)) /\
  (forall s v, source_of stats s = Ok v -> numeric v ->
               stat record (statistic_name s) = Ok v).
Proof.
  intro H.
  split; [exact (player_record_keys player stats record H)|].
  split; [intro s; exact (player_record_stat player stats record s H)|].
  split; [|split].
  - intros s Hd.
    destruct (player_record_stat player stats record s H) as [v [_ Hs]].
    rewrite Hd in Hs. eexists; split; [exact Hs | apply or_zero_not_none].
  - intros s v Hd Hsrc Hnum.
    destruct (player_record_stat player stats record s H) as [v' [Hv' Hs]].
    rewrite Hsrc in Hv'. injection Hv' as <-. rewrite Hd in Hs.
    destruct (or_zero_numeric v Hnum) as [n Hn]. exists n. now rewrite <- Hn.
  - intros s v Hsrc [n ->].
    destruct (player_record_stat player stats record s H) as [v' [Hv' Hs]].
    rewrite Hsrc in Hv'. injection Hv' as <-.
    rewrite Hs. now destruct (defaulted s).
Qed.

Lemma player_record_closed_statistics_witness :
  exists record,
    player_record rashford stats_without_goals = Ok record /\
    (exists v, stat record "Blocks" = Ok v /\ v <> VNone).
Proof.
  destruct (player_record rashford stats_without_goals) as [record|e] eqn:E;
    [|discriminate E].
  exists record. split; [reflexivity|].
  exact (proj1 (proj2 (proj2
           (player_record_closed_statistics rashford stats_without_goals record E)))
           Blocks eq_refl).
Defined.

(** ** Only [statistics[0]] is read *)




(** ** Applying the normalizer twice *)






(** ** The lineups reduction *)

Lemma seq_index_of_nat (len i : nat) :
  i < len -> seq_index len (Z.of_nat i) = Some i.
Proof.
  intro H. unfold seq_index.
  destruct (Z.leb_spec 0 (Z.of_nat i)); [|lia].
  destruct (Z.ltb_spec (Z.of_nat i) (Z.of_nat len)); [|lia].
  now rewrite Nat2Z.id.
Qed.

(** [stats['lineups'][i][field]] when [stats['lineups']] is a list. *)
Lemma lineup_entry_read (stats : value) (entries : list value) (i : nat)
      (e : value) (field : key) :
  getitem stats "lineups" = Ok (VList entries) ->
  nth_error entries i = Some e ->
  path stats [KStr "lineups"; KInt (Z.of_nat i); field] = getitem e field.
Proof.
  intros Hl He. cbn [path]. rewrite Hl. cbn [rbind getitem int_of_key].
  assert (Hi : i < List.length entries) by (apply nth_error_Some; congruence).
  rewrite (seq_index_of_nat _ _ Hi), He. cbn [rbind].
  now destruct (getitem e field).
Qed.

Lemma lineups_loop_fold (stats : value) (entries : list value) :
  getitem stats "lineups" = Ok (VList entries) ->
  forall (rest done : list value) (lineup_info : dict),
    entries = (done ++ rest)%list ->
    lineups_loop stats (seq (List.length done) (List.length rest)) lineup_info =
    lineups_fold rest lineup_info.
Proof.
  intro Hl. induction rest as [|e rest IH]; intros done lineup_info Hsplit.
  - reflexivity.
  - cbn [List.length seq lineups_loop lineups_fold].
    assert (He : nth_error entries (List.length done) = Some e).
    { rewrite Hsplit, nth_error_app2, Nat.sub_diag by lia. reflexivity. }
    rewrite !(lineup_entry_read stats entries _ e _ Hl He).
    destruct (getitem e "formation") as [f|]; [|reflexivity]. cbn [rbind].
    destruct (getitem e "played") as [t|]; [|reflexivity]. cbn [rbind].
    destruct (as_key f) as [k|]; [|reflexivity]. cbn [rbind].
    specialize (IH (done ++ [e])%list (dict_set lineup_info k t)).
    rewrite length_app, Nat.add_1_r in IH. apply IH.
    now rewrite <- app_assoc.
Qed.

Lemma reduce_lineups_fold (stats : value) (entries : list value) :
  getitem stats "lineups" = Ok (VList entries) ->
  reduce_lineups stats = lineups_fold entries [].
Proof.
  intro Hl. unfold reduce_lineups. rewrite Hl. cbn [rbind py_len].
  exact (lineups_loop_fold stats entries Hl entries [] [] eq_refl).
Qed.

Lemma lineups_fold_find (entries : list value) :
  forall (lineup_info info : dict) (label : key),
    lineups_fold entries lineup_info = Ok info ->
    dict_find info label =
    match last_played entries label with
    | Some times => Some times
    | None => dict_find lineup_info label
    end.
Proof.
  induction entries as [|e rest IH]; intros lineup_info info label H.
  - injection H as <-. reflexivity.
  - cbn [lineups_fold] in H. cbn [last_played].
    destruct (getitem e "formation") as [f|]; [|discriminate H]. cbn [rbind] in *.
    destruct (getitem e "played") as [t|]; [|discriminate H]. cbn [rbind] in *.
    destruct (as_key f) as [k|]; [|discriminate H]. cbn [rbind] in *.
    rewrite (IH _ _ label H), dict_find_set.
    destruct (last_played rest label); [reflexivity|].
    now destruct (key_eqb k label).
Qed.

Lemma lineups_fold_total (entries : list value) :
  Forall lineup_entry entries ->
  forall lineup_info, exists info, lineups_fold entries lineup_info = Ok info.
Proof.
  induction 1 as [|e rest [f [k [t [Hf [Hk Ht]]]]] _ IH]; intro lineup_info.
  - now exists lineup_info.
  - cbn [lineups_fold]. rewrite Hf, Ht. cbn [rbind]. rewrite Hk. cbn [rbind].
    apply IH.
Qed.

Lemma normalize_team_lineups (club_data record : value) :
  normalize_team club_data = Ok record ->
  exists info, reduce_lineups club_data = Ok info /\
               path record [KStr "Stats"; KStr "Lineups"] = Ok (VDict info).
Proof.
  intro H. unfold normalize_team in H. step_reads H.
  injection H as <-. eexists. split; [eassumption | reflexivity].
Qed.

(** C6.  The lineups list is reduced to a mapping in which every formation
    label carries the count of the last entry with that label (a later
    duplicate overwrites, nothing is summed); the reduction succeeds on
    every list of well-formed entries, and its result is the [Lineups] of
    the team record.  The three-entry example gives
    [{"4-3-3": 3, "4-4-2": 5}]. *)
Theorem lineups_last_write_wins :
  (forall stats entries,
      getitem stats "lineups" = Ok (VList entries) ->
      Forall lineup_entry entries ->
      exists info, reduce_lineups stats = Ok info) /\
  (forall stats entries info label,
      getitem stats "lineups" = Ok (VList entries) ->
      reduce_lineups stats = Ok info ->
      dict_find info label = last_played entries label) /\
  (forall club_data record,
      normalize_team club_data = Ok record ->
      exists info, reduce_lineups club_data = Ok info /\
                   path record [KStr "Stats"; KStr "Lineups"] = Ok (VDict info)) /\
  (record <- normalize_team (sample_club_data 18 10 2 30 sample_lineups) ;;
   path record [KStr "Stats"; KStr "Lineups"]) =
  Ok (VDict [ (KStr "4-3-3", VInt 3); (KStr "4-4-2", VInt 5) ]).
Proof.
  split; [|split; [|split]].
  - intros stats entries Hl Hwf. rewrite (reduce_lineups_fold stats entries Hl).
    apply lineups_fold_total, Hwf.
  - intros stats entries info label Hl H.
    rewrite (reduce_lineups_fold stats entries Hl) in H.
    rewrite (lineups_fold_find entries [] info label H).
    now destruct (last_played entries label).
  - exact normalize_team_lineups.
  - vm_compute. reflexivity.
Qed.

Lemma lineups_last_write_wins_witness :
  (exists info, reduce_lineups (sample_club_data 18 10 2 30 sample_lineups) = Ok info) /\
  dict_find [ (KStr "4-3-3", VInt 3); (KStr "4-4-2", VInt 5) ] "4-3-3" = Some (VInt 3).
Proof.
  destruct lineups_last_write_wins as [Htotal [Hlast _]].
  split.
  - apply (Htotal _ sample_lineups); [reflexivity|].
    repeat constructor; do 3 eexists; repeat split; reflexivity.
  - apply (Hlast (sample_club_data 18 10 2 30 sample_lineups) sample_lineups);
      reflexivity.
Defined.

(** ** The performance score *)

(** With at least one game recorded the divisor is [max(games, 1)] and is
    not 0. *)
Lemma calculate_performance_played (d : dict) (season : string) (w l g n : Z) :
  dict_find d "Total Wins" = Some (VInt w) ->
  dict_find d "Total Losses" = Some (VInt l) ->
  dict_find d "Total Goals Scored" = Some (VInt g) ->
  dict_find d "Total Games" = Some (VInt n) ->
  (0 < n)%Z ->
  calculate_performance (VDict d) season = nearest_double (w - l + g) (Z.max n 1).
Proof.
  intros Hw Hl Hg Hn Hpos. unfold calculate_performance, dict_get.
  rewrite Hw, Hl, Hg, Hn. cbn [rbind as_int]. unfold true_div.
  destruct (Z.eqb_spec n 0) as [->|_]; [lia|].
  now rewrite Z.max_l by lia.
Qed.

(** A record without the key divides by the default 1. *)
Lemma calculate_performance_no_key (d : dict) (season : string) (w l g : Z) :
  dict_find d "Total Wins" = Some (VInt w) ->
  dict_find d "Total Losses" = Some (VInt l) ->
  dict_find d "Total Goals Scored" = Some (VInt g) ->
  dict_find d "Total Games" = None ->
  calculate_performance (VDict d) season = nearest_double (w - l + g) 1.
Proof.
  intros Hw Hl Hg Hn. unfold calculate_performance, dict_get.
  now rewrite Hw, Hl, Hg, Hn.
Qed.

(** A record whose [Total Games] is 0 divides by that 0. *)
Lemma calculate_performance_no_games (d : dict) (season : string) (w l g : Z) :
  dict_find d "Total Wins" = Some (VInt w) ->
  dict_find d "Total Losses" = Some (VInt l) ->
  dict_find d "Total Goals Scored" = Some (VInt g) ->
  dict_find d "Total Games" = Some (VInt 0) ->
  calculate_performance (VDict d) season = Raise ZeroDivisionError.
Proof.
  intros Hw Hl Hg Hn. unfold calculate_performance, dict_get.
  now rewrite Hw, Hl, Hg, Hn.
Qed.

(** C1.  On the record of the specification (10 wins, 2 losses, 30 goals,
    0 games) [calculate_performance] raises [ZeroDivisionError] instead of
    returning 38; so it does on the record [get_team_stats] builds for a
    team without fixtures. *)
Theorem calculate_performance_zero_games_raises :
  calculate_performance spec_example_stats "2023" = Raise ZeroDivisionError /\
  (record <- normalize_team (sample_club_data 0 0 0 0 []) ;;
   stats_dict <- getitem record "Stats" ;;
   calculate_performance stats_dict "2023") = Raise ZeroDivisionError.
Proof.
  split; vm_compute; reflexivity.
Qed.

(** ** Errors of the team retrieval *)

Lemma bind_ok {A B} (m : M A) (f : A -> M B) (b : B) :
  outcome (bind m f) = Ok b ->
  exists a, outcome m = Ok a /\ outcome (f a) = Ok b.
Proof.
  destruct m as [sent [a|e]]; cbn.
  - destruct (f a) as [sent' r] eqn:E. cbn. intros ->. exists a. now rewrite E.
  - discriminate.
Qed.

Lemma bind_raise {A B} (m : M A) (f : A -> M B) (e : exn) :
  outcome m = Raise e -> outcome (bind m f) = Raise e.
Proof.
  destruct m as [sent [a|e']]; cbn; [discriminate | congruence].
Qed.

Lemma bind_outcome {A B} (m : M A) (f : A -> M B) (a : A) :
  outcome m = Ok a -> outcome (bind m f) = outcome (f a).
Proof.
  destruct m as [sent [a'|e']]; cbn; [|discriminate].
  intros [= ->]. now destruct (f a).
Qed.

(** X21.  Whenever the statistics fetch gives [None] for a club that was found,
    the membership test on it raises. *)
Lemma get_team_stats_none_raises
      (requests_get : request -> result response)
      (club_name club_country season league_name : string)
      (league_id : Z) (club_id : value) :
  league_get LEAGUE_IDS league_name = Some league_id ->
  league_id <> 0%Z ->
  outcome (get_club_id requests_get club_name club_country) = Ok club_id ->
  is_none club_id = false ->
  outcome (get_club_stats_from_api requests_get club_id season league_id) = Ok VNone ->
  outcome (get_team_stats requests_get club_name club_country season league_name) =
  Raise TypeError.
Proof.
  intros Hleague Hid Hclub Hsome Hstats. unfold get_team_stats.
  rewrite Hleague. destruct (Z.eqb_spec league_id 0) as [|_]; [contradiction|].
  rewrite (bind_outcome _ _ _ Hclub), Hsome.
  rewrite (bind_outcome _ _ _ Hstats). reflexivity.
Qed.

(** X20.  The "No stats found" answer is behind the membership test and is never
    given. *)
Lemma get_team_stats_never_no_stats
      (requests_get : request -> result response)
      (club_name club_country season league_name : string) :
  outcome (get_team_stats requests_get club_name club_country season league_name) <>
  Ok (VStr (no_stats_message club_name season)).
Proof.
  unfold get_team_stats. intro H.
  destruct (league_get LEAGUE_IDS league_name) as [league_id|]; [|discriminate H].
  destruct (league_id =? 0)%Z; [discriminate H|].
  apply bind_ok in H. destruct H as [club_id [_ H]].
  destruct (is_none club_id); [discriminate H|].
  apply bind_ok in H. destruct H as [club_data [_ H]].
  apply bind_ok in H. destruct H as [has_team [Hin H]].
  destruct has_team; cbn [negb] in H; [|discriminate H].
  destruct club_data; try discriminate Hin; cbn [is_none] in H.
  - cbn in H. unfold normalize_team in H. step_reads H. discriminate H.
  - cbn in H. unfold normalize_team in H. step_reads H. discriminate H.
  - cbn in H. unfold normalize_team in H. step_reads H. discriminate H.
Qed.

(** C8.  For a club that is found but has no statistics, [get_team_stats]
    raises [TypeError] at ['team' not in club_data]; the "No stats found"
    string is not returned. *)
Theorem get_team_stats_no_data_raises :
  outcome (get_club_stats_from_api network_without_statistics (VInt 33) "2023" 39) =
    Ok VNone /\
  outcome (get_team_stats network_without_statistics
             "Manchester United" "England" "2023" "Premier League") =
    Raise TypeError /\
  List.length (requests_sent (get_team_stats network_without_statistics
             "Manchester United" "England" "2023" "Premier League")) = 2.
Proof.
  repeat split; vm_compute; reflexivity.
Qed.

(** ** The first of the closest candidates *)

Section ClosestFacts.
Variable f : value -> result nat.

Lemma above_weaken (a b : nat) (c : value) : a <= b -> (above f) b c -> (above f) a c.
Proof. intros Hab [k [Hk Hlt]]. exists k. split; [exact Hk | lia]. Qed.

Lemma at_least_weaken (a b : nat) (c : value) : a <= b -> (at_least f) b c -> (at_least f) a c.
Proof. intros Hab [k [Hk Hle]]. exists k. split; [exact Hk | lia]. Qed.



(** The first of the closest is unique: it is determined by the pool. *)
Lemma first_min_least (pool : list value) (best : value) :
  (first_min f) pool best ->
  exists k, f best = Ok k /\ Forall ((at_least f) k) pool.
Proof.
  intros [before [after [k [-> [Hk [Hb Ha]]]]]]. exists k. split; [exact Hk|].
  apply Forall_app. split.
  - eapply Forall_impl; [|exact Hb].
    intros c [k' [Hk' Hlt]]. exists k'. split; [exact Hk' | lia].
  - constructor; [|exact Ha]. exists k. split; [exact Hk | lia].
Qed.

End ClosestFacts.

Lemma distance_same (s : string) : distance s s = 0.
Proof.
  induction s as [|a s IH]; [reflexivity|].
  cbn. now rewrite Ascii.eqb_refl.
Qed.












(** ** The search loop *)

Lemma append_empty_r (s : string) : s ++ "" = s.
Proof. induction s as [|a s IH]; [reflexivity | cbn; now rewrite IH]. Qed.

Lemma append_assoc (s t u : string) : (s ++ t) ++ u = s ++ t ++ u.
Proof. induction s as [|a s IH]; [reflexivity | cbn; now rewrite IH]. Qed.

Section RoundsFacts.
Variable requests_get : request -> result response.
Variable unidecode : string -> string.
Variable season : string.
Variable league_id : Z.

(** A round sends one request and either returns the closest candidate
    or falls through. *)
Lemma search_round_spec (search_name : string) :
  search_round requests_get unidecode season league_id search_name =
  ([query season league_id search_name],
   match fetched requests_get season league_id search_name with
   | Ok found =>
       if truthy found
       then best <- py_min (name_distance unidecode search_name) found ;; Ok (Some best)
       else Ok None
   | Raise e => Raise e
   end).
Proof.
  unfold search_round, fetched, http_get, query.
  destruct (requests_get (players_request season search_name league_id))
    as [response|e]; [|reflexivity].
  cbn [bind rbind lift]. destruct (json response) as [data|e]; [|reflexivity].
  cbn [bind rbind lift].
  destruct data as [| | | | |d]; try reflexivity.
  cbn [dict_get getitem].
  destruct (dict_find d "response") as [found|]; [|reflexivity].
  cbn [bind]. destruct (truthy found); [|reflexivity].
  cbn [bind rbind lift].
  now destruct (py_min (name_distance unidecode search_name) found).
Qed.

Lemma loop_miss (a : ascii) (rest : string) :
  fetch_empty requests_get season league_id (String a rest) ->
  search_loop requests_get unidecode season league_id (String a rest) =
  (query season league_id (String a rest)
     :: requests_sent (search_loop requests_get unidecode season league_id rest),
   outcome (search_loop requests_get unidecode season league_id rest)).
Proof.
  intros [found [Hf Hfalse]]. cbn [search_loop].
  rewrite search_round_spec, Hf, Hfalse.
  cbn [bind]. now destruct (search_loop requests_get unidecode season league_id rest).
Qed.




Lemma trimmed_cons (k : nat) (a : ascii) (rest : string) :
  trimmed (S k) (String a rest) = trimmed k rest.
Proof.
  unfold trimmed. now rewrite Nat.iter_succ_r.
Qed.

Lemma trimmed_length (search_name : string) (k : nat) :
  String.length (trimmed k search_name) = String.length search_name - k.
Proof.
  revert search_name. induction k as [|k IH]; intro s.
  - cbn. lia.
  - destruct s as [|a rest].
    + unfold trimmed. rewrite Nat.iter_succ_r. apply (IH "").
    + rewrite trimmed_cons, IH. reflexivity.
Qed.

Lemma trimmed_all (search_name : string) :
  trimmed (String.length search_name) search_name = "".
Proof.
  induction search_name as [|a rest IH]; [reflexivity|].
  cbn [String.length]. now rewrite trimmed_cons.
Qed.

Lemma loop_no_match (search_name : string) :
  all_empty_before requests_get season league_id search_name "" ->
  search_loop requests_get unidecode season league_id search_name =
  (map (fun k => query season league_id (trimmed k search_name)) (seq 0 (String.length search_name)),
   Ok VNone).
Proof.
  induction search_name as [|a rest IH]; intro Hempty; [reflexivity|].
  rewrite loop_miss.
  - rewrite IH.
    + cbn [requests_sent outcome fst snd String.length seq map].
      rewrite <- seq_shift, map_map. f_equal. f_equal.
      apply map_ext. intro k. now rewrite trimmed_cons.
    + intros dropped rest' Hsplit Hne.
      apply (Hempty (String a dropped) rest'); [now rewrite Hsplit | exact Hne].
  - specialize (Hempty "" (String a rest) eq_refl).
    rewrite append_empty_r in Hempty. apply Hempty. discriminate.
Qed.

End RoundsFacts.






Lemma trimmed_append (dropped rest : string) :
  trimmed (String.length dropped) (dropped ++ rest) = rest.
Proof.
  induction dropped as [|a dropped IH]; [reflexivity|].
  cbn [String.length append]. now rewrite trimmed_cons.
Qed.

Lemma length_append (s t : string) :
  String.length (s ++ t) = String.length s + String.length t.
Proof. induction s as [|a s IH]; [reflexivity | cbn; now rewrite IH]. Qed.

Lemma no_match_all_empty (requests_get : request -> result response) (season : string)
      (league_id : Z) (search_name : string) :
  no_match requests_get season league_id search_name ->
  all_empty_before requests_get season league_id search_name "".
Proof.
  intros Hnone dropped rest Hsplit Hne. rewrite append_empty_r.
  rewrite <- (trimmed_append dropped rest), <- Hsplit. apply Hnone.
  rewrite Hsplit, length_append. destruct rest; [contradiction | cbn; lia].
Qed.





(** The example picks the second candidate: it ties with the third at
    distance 0 and comes first. *)
Example muller_best_match :
  outcome (get_player_stats_from_api network_muller unidecode_sample
             muller_accented "2023" 78) = Ok (sample_candidate "Muller" []).
Proof. vm_compute. reflexivity. Qed.

(** C4, as stated, fails: the rounds are counted on the transliterated
    query.  The name "Gross" written with a sharp s has 4 characters, is
    searched as "Gross", and takes 5 rounds before [None] is returned. *)
Lemma gross_takes_five_rounds :
  no_match network_empty "2023" 78 (unidecode_sample gross) /\
  String.length gross = 4 /\
  outcome (get_player_stats_from_api network_empty unidecode_sample gross "2023" 78) =
    Ok VNone /\
  List.length (requests_sent
     (get_player_stats_from_api network_empty unidecode_sample gross "2023" 78)) = 5.
Proof.
  split; [|repeat split; vm_compute; reflexivity].
  intros k _. exists (VList []). split; reflexivity.
Qed.

(** C4 (amended).  When every round comes back empty,
    [get_player_stats_from_api] returns [None] after exactly
    [len(unidecode(player_name))] rounds, one request each: round [k] asks
    for the transliterated query with its first [k] characters removed,
    whose length is [k] less, and after the last round the search string is
    empty.  The count is [len(player_name)] when transliteration keeps the
    length. *)
Theorem search_without_match_terminates
        (requests_get : request -> result response) (unidecode : string -> string)
        (player_name season : string) (league_id : Z) :
  no_match requests_get season league_id (unidecode player_name) ->
  get_player_stats_from_api requests_get unidecode player_name season league_id =
    (map (fun k => query season league_id (trimmed k (unidecode player_name)))
         (seq 0 (String.length (unidecode player_name))),
     Ok VNone) /\
  List.length (requests_sent
     (get_player_stats_from_api requests_get unidecode player_name season league_id)) =
    String.length (unidecode player_name) /\
  (forall k, String.length (trimmed k (unidecode player_name)) =
             String.length (unidecode player_name) - k) /\
  trimmed (String.length (unidecode player_name)) (unidecode player_name) = "" /\
  (String.length (unidecode player_name) = String.length player_name ->
   List.length (requests_sent
      (get_player_stats_from_api requests_get unidecode player_name season league_id)) =
     String.length player_name).
Proof.
  intro Hnone. apply no_match_all_empty in Hnone.
  pose proof (loop_no_match requests_get unidecode season league_id
                (unidecode player_name) Hnone) as Hloop.
  assert (Hsent : List.length (requests_sent
     (get_player_stats_from_api requests_get unidecode player_name season league_id)) =
    String.length (unidecode player_name)).
  { unfold get_player_stats_from_api. rewrite Hloop. cbn [requests_sent fst].
    now rewrite length_map, length_seq. }
  split; [exact Hloop|]. split; [exact Hsent|]. split; [|split].
  - intro k. apply trimmed_length.
  - apply trimmed_all.
  - intros <-. exact Hsent.
Qed.

Lemma search_without_match_terminates_witness :
  List.length (requests_sent
     (get_player_stats_from_api network_empty unidecode_sample "Ronaldo" "2023" 39)) = 7.
Proof.
  refine (proj1 (proj2 (search_without_match_terminates network_empty unidecode_sample
                          "Ronaldo" "2023" 39 _))).
  intros k _. exists (VList []). split; reflexivity.
Defined.

(** ** The search strings of [get_player_stats] *)

Lemma split_space_not_nil (s : string) : split_space s <> [].
Proof.
  destruct s as [|c s]; cbn; [discriminate|].
  destruct (Ascii.eqb c " "); [discriminate|].
  destruct (split_space s); discriminate.
Qed.

(** [" ".join(s.split(" ")) == s]. *)
Lemma join_split_space (s : string) : join " " (split_space s) = s.
Proof.
  induction s as [|c s IH]; [reflexivity|].
  cbn [split_space]. destruct (Ascii.eqb_spec c " "%char) as [->|_].
  - pose proof (split_space_not_nil s) as Hne.
    destruct (split_space s) as [|w ws]; [contradiction|].
    cbn [join]. cbn [join] in IH. now rewrite IH.
  - pose proof (split_space_not_nil s) as Hne.
    destruct (split_space s) as [|w ws]; [contradiction|].
    rewrite <- IH. now destruct ws.
Qed.

(** [sep.join(l[:-1]) + sep + l[-1] == sep.join(l)] for two pieces or more. *)
Lemma join_removelast_last (sep : string) (l : list string) :
  2 <= List.length l ->
  join sep (removelast l) ++ sep ++ last l "" = join sep l.
Proof.
  induction l as [|a l IH]; cbn [List.length]; [lia|].
  intro Hlen. destruct l as [|b l]; [cbn in Hlen; lia|].
  destruct l as [|c l]; [reflexivity|].
  assert (Hrec : 2 <= List.length (b :: c :: l)) by (cbn; lia).
  specialize (IH Hrec).
  change (removelast (a :: b :: c :: l)) with (a :: removelast (b :: c :: l)).
  change (last (a :: b :: c :: l) "") with (last (b :: c :: l) "").
  change (join sep (a :: removelast (b :: c :: l)))
    with (a ++ sep ++ join sep (removelast (b :: c :: l))).
  change (join sep (a :: b :: c :: l)) with (a ++ sep ++ join sep (b :: c :: l)).
  now rewrite !append_assoc, IH.
Qed.

(** The name handed to the first search: a multi-word name is put back
    together as it was; for a single word the empty first name and the
    joining space are still there, so the word comes with a space in front
    of it. *)
Lemma initial_search_name (player_full_name : string) :
  exists first_name last_name,
    first_and_last (split_space player_full_name) = Ok (first_name, last_name) /\
    match split_space player_full_name with
    | [_] => first_name = "" /\ last_name = player_full_name /\
             first_name ++ " " ++ last_name = String " " player_full_name
    | _ => first_name ++ " " ++ last_name = player_full_name
    end.
Proof.
  pose proof (join_split_space player_full_name) as Hjoin.
  pose proof (split_space_not_nil player_full_name) as Hne.
  destruct (split_space player_full_name) as [|a [|b l]] eqn:E; [contradiction| |].
  - exists "", a. cbn in Hjoin. subst a. repeat split.
  - exists (join " " (removelast (a :: b :: l))), (last (a :: b :: l) "").
    split; [reflexivity|].
    rewrite join_removelast_last by (cbn; lia). exact Hjoin.
Qed.

(** X19.  When the first search finds nobody, one second search is made with the
    last name, and when that finds nobody either the answer is the "No
    stats found" string. *)
Lemma get_player_stats_second_pass
      (requests_get : request -> result response) (unidecode : string -> string)
      (player_full_name season league_name : string) (league_id : Z)
      (first_name last_name : string) :
  league_get LEAGUE_IDS league_name = Some league_id ->
  league_id <> 0%Z ->
  first_and_last (split_space player_full_name) = Ok (first_name, last_name) ->
  outcome (get_player_stats_from_api requests_get unidecode
             (first_name ++ " " ++ last_name) season league_id) = Ok VNone ->
  requests_sent (get_player_stats requests_get unidecode player_full_name season league_name) =
    (requests_sent (get_player_stats_from_api requests_get unidecode
                      (first_name ++ " " ++ last_name) season league_id) ++
     requests_sent (get_player_stats_from_api requests_get unidecode
                      last_name season league_id))%list /\
  (outcome (get_player_stats_from_api requests_get unidecode last_name season league_id)
     = Ok VNone ->
   outcome (get_player_stats requests_get unidecode player_full_name season league_name)
     = Ok (VStr (no_stats_message player_full_name season))).
Proof.
  intros Hleague Hid Hnames Hfirst. unfold get_player_stats.
  rewrite Hleague. destruct (Z.eqb_spec league_id 0) as [|_]; [contradiction|].
  rewrite Hnames. cbn [lift bind].
  destruct (get_player_stats_from_api requests_get unidecode
              (first_name ++ " " ++ last_name) season league_id) as [sent1 [v1|e1]];
    cbn in Hfirst; [|discriminate Hfirst].
  injection Hfirst as ->. cbn [bind is_none].
  destruct (get_player_stats_from_api requests_get unidecode last_name season league_id)
    as [sent2 [v2|e2]]; cbn [bind requests_sent outcome fst snd].
  - destruct (is_none v2) eqn:Hnone.
    + cbn. rewrite ?app_nil_r. split; [reflexivity|].
      intros [= ->]. reflexivity.
    + destruct (normalize_player v2); cbn; rewrite ?app_nil_r;
        (split; [reflexivity|]); intros [= ->]; discriminate Hnone.
  - cbn. rewrite ?app_nil_r. split; [reflexivity | discriminate].
Qed.

(** C5.  For the single-word name "Ronaldo" the first search string is
    " Ronaldo", with the joining space in front, not the surname alone; the
    first pass therefore takes eight rounds, and the second pass over
    "Ronaldo" seven more before "No stats found" is returned. *)
Theorem single_word_search_has_leading_space :
  hd_error (requests_sent
              (get_player_stats network_empty unidecode_sample
                 "Ronaldo" "2023" "Premier League")) =
    Some (players_request "2023" " Ronaldo" 39) /\
  players_request "2023" " Ronaldo" 39 <> players_request "2023" "Ronaldo" 39 /\
  List.length (requests_sent
                 (get_player_stats network_empty unidecode_sample
                    "Ronaldo" "2023" "Premier League")) = 8 + 7 /\
  outcome (get_player_stats network_empty unidecode_sample
             "Ronaldo" "2023" "Premier League") =
    Ok (VStr "No stats found for Ronaldo in the 2023 season.").
Proof.
  split; [vm_compute; reflexivity|].
  split; [discriminate|].
  split; vm_compute; reflexivity.
Qed.

(** * Further properties of the code *)

(** ** The team record *)

Lemma normalize_team_reads (club_data record : value) :
  normalize_team club_data = Ok record ->
  (exists d, getitem record "Stats" = Ok (VDict d) /\
             dict_keys d =
             (map (fun e => KStr (fst e)) team_sources ++ [KStr "Lineups"])%list) /\
  Forall (fun e => exists v, path club_data (snd e) = Ok v /\
                             stat record (fst e) = Ok v) team_sources /\
  (exists club name logo,
      getitem club_data "team" = Ok club /\
      getitem club "name" = Ok name /\ getitem club "logo" = Ok logo /\
      getitem record "Club" = Ok (VDict [ (KStr "Name", name); (KStr "Logo", logo) ])).
Proof.
  intro H. unfold normalize_team in H. step_reads H. injection H as <-.
  split; [|split].
  - eexists. split; reflexivity.
  - unfold team_sources.
    repeat (constructor; [eexists; split; [eassumption | reflexivity]|]).
    constructor.
  - do 3 eexists. repeat split; eassumption.
Qed.

(** X1.  [get_team_stats] defaults nothing: the [Stats] of a team record
    has the thirty-six named statistics and [Lineups], in the order of the
    source, each named statistic being the object found at its path,
    unchanged; the [Club] fields are the [name] and [logo] of
    [club_data['team']].  A path that cannot be read makes the
    normalization raise. *)
Theorem normalize_team_reads_as_is (club_data : value) :
  (forall record,
      normalize_team club_data = Ok record ->
      (exists d, getitem record "Stats" = Ok (VDict d) /\
                 dict_keys d =
                 (map (fun e => KStr (fst e)) team_sources ++ [KStr "Lineups"])%list) /\
      Forall (fun e => exists v, path club_data (snd e) = Ok v /\
                                 stat record (fst e) = Ok v) team_sources /\
      (exists club name logo,
          getitem club_data "team" = Ok club /\
          getitem club "name" = Ok name /\ getitem club "logo" = Ok logo /\
          getitem record "Club" = Ok (VDict [ (KStr "Name", name); (KStr "Logo", logo) ]))) /\
  (forall e err,
      In e team_sources -> path club_data (snd e) = Raise err ->
      exists err', normalize_team club_data = Raise err').
Proof.
  split.
  - intros record H. exact (normalize_team_reads club_data record H).
  - intros e err Hin Herr.
    destruct (normalize_team club_data) as [record|err'] eqn:E; [|now exists err'].
    destruct (normalize_team_reads club_data record E) as [_ [Hall _]].
    rewrite Forall_forall in Hall. destruct (Hall e Hin) as [v [Hv _]]. congruence.
Qed.

Lemma normalize_team_reads_as_is_witness :
  stat (VDict [ (KStr "Stats", VDict [ (KStr "Total Games", VInt 18) ]) ]) "Total Games" =
  path (sample_club_data 18 10 2 30 sample_lineups)
       [KStr "fixtures"; KStr "played"; KStr "total"] /\
  (exists err', normalize_team (VDict [ (KStr "team", VDict []) ]) = Raise err').
Proof.
  split; [reflexivity|].
  apply (proj2 (normalize_team_reads_as_is (VDict [ (KStr "team", VDict []) ]))
           ("Club Form", [KStr "form"]) (KeyError (KStr "form"))).
  - unfold team_sources. do 10 right. left. reflexivity.
  - reflexivity.
Defined.

(** ** The identity fields of a player record *)

Lemma path1 (v : value) (k : key) : path v [k] = getitem v k.
Proof. cbn. now destruct (getitem v k). Qed.

(** X2.  A player record has the two keys [Player] and [Stats]; [Player]
    holds [Name], [Photo], [Team Logo], [Nationality] and [Team], read
    unchanged from [player['name']], [player['photo']],
    [stats['team']['logo']], [player['nationality']] and
    [stats['team']['id']]; an identity field that cannot be read makes the
    normalization raise. *)
Theorem player_record_identity (player stats : value) :
  (forall record,
      player_record player stats = Ok record ->
      (exists p s, record = VDict [ (KStr "Player", VDict p); (KStr "Stats", VDict s) ] /\
                   dict_keys p = map (fun e => KStr (fst e)) identity_sources) /\
      Forall (fun e : string * (bool * list key) => exists v,
                  path (if fst (snd e) then player else stats) (snd (snd e)) = Ok v /\
                  path record [KStr "Player"; KStr (fst e)] = Ok v) identity_sources) /\
  (forall (e : string * (bool * list key)) err,
      In e identity_sources ->
      path (if fst (snd e) then player else stats) (snd (snd e)) = Raise err ->
      exists err', player_record player stats = Raise err').
Proof.
  assert (Hreads : forall record,
             player_record player stats = Ok record ->
             Forall (fun e : string * (bool * list key) => exists v,
                         path (if fst (snd e) then player else stats) (snd (snd e)) = Ok v /\
                         path record [KStr "Player"; KStr (fst e)] = Ok v) identity_sources).
  { intros record H. unfold player_record in H. step_reads H.
    injection H as <-. unfold identity_sources.
    repeat (constructor;
            [eexists; split; [cbn [fst snd]; rewrite ?path1; eassumption | reflexivity]|]).
    constructor. }
  split.
  - intros record H. split; [|exact (Hreads record H)].
    unfold player_record in H. step_reads H. injection H as <-.
    do 2 eexists. split; reflexivity.
  - intros e err Hin Herr.
    destruct (player_record player stats) as [record|err'] eqn:E; [|now exists err'].
    pose proof (Hreads record eq_refl) as Hall.
    rewrite Forall_forall in Hall. destruct (Hall e Hin) as [v [Hv _]]. congruence.
Qed.

Lemma player_record_identity_witness :
  (exists v, path stats_without_assists [KStr "team"; KStr "id"] = Ok v /\
             (record <- player_record rashford stats_without_assists ;;
              path record [KStr "Player"; KStr "Team"]) = Ok v) /\
  (exists err', player_record (VDict []) stats_without_assists = Raise err').
Proof.
  split.
  - destruct (player_record rashford stats_without_assists) as [record|e] eqn:E;
      [|discriminate E].
    pose proof (proj2 (proj1 (player_record_identity rashford stats_without_assists)
                        record E)) as Hall.
    rewrite Forall_forall in Hall.
    apply (Hall ("Team", (false, [KStr "team"; KStr "id"]))).
    unfold identity_sources. do 4 right. left. reflexivity.
  - apply (proj2 (player_record_identity (VDict []) stats_without_assists)
             ("Name", (true, [KStr "name"])) (KeyError (KStr "name"))).
    + left. reflexivity.
    + reflexivity.
Defined.

(** ** The keys of the lineups mapping *)

Lemma dict_set_unique (d : dict) (k : key) (v : value) :
  unique_keys d -> unique_keys (dict_set d k v).
Proof.
  induction d as [|[k0 v0] d IH]; cbn [dict_set unique_keys].
  - intros _. split; [reflexivity | exact I].
  - intros [Hfresh Hrest]. destruct (key_eqb k0 k) eqn:E; cbn [unique_keys].
    + split; assumption.
    + split; [|exact (IH Hrest)].
      rewrite dict_find_set, key_eqb_sym, E. exact Hfresh.
Qed.

Lemma dict_set_length (d : dict) (k : key) (v : value) :
  List.length (dict_set d k v) <= S (List.length d).
Proof.
  induction d as [|[k0 v0] d IH]; cbn [dict_set List.length]; [lia|].
  destruct (key_eqb k0 k); cbn [List.length]; lia.
Qed.

Lemma lineups_loop_unique (stats : value) (indices : list nat) :
  forall lineup_info info,
    unique_keys lineup_info ->
    lineups_loop stats indices lineup_info = Ok info ->
    unique_keys info /\
    List.length info <= List.length lineup_info + List.length indices.
Proof.
  induction indices as [|i rest IH]; intros lineup_info info Hu H.
  - injection H as <-. split; [exact Hu | cbn; lia].
  - cbn [lineups_loop] in H. step_reads H.
    destruct (IH _ _ (dict_set_unique lineup_info _ _ Hu) H) as [Hu' Hlen].
    split; [exact Hu'|].
    pose proof (dict_set_length lineup_info v1 v0). cbn [List.length]. lia.
Qed.

(** X3.  The lineups mapping never holds a formation label twice, and has
    at most as many labels as [stats['lineups']] has entries. *)
Theorem reduce_lineups_unique (stats lineups : value) (n : nat) (info : dict) :
  getitem stats "lineups" = Ok lineups ->
  py_len lineups = Ok n ->
  reduce_lineups stats = Ok info ->
  unique_keys info /\ List.length info <= n.
Proof.
  intros Hl Hn H. unfold reduce_lineups in H. rewrite Hl in H. cbn [rbind] in H.
  rewrite Hn in H. cbn [rbind] in H.
  destruct (lineups_loop_unique stats (seq 0 n) [] info I H) as [Hu Hlen].
  rewrite length_seq in Hlen. split; [exact Hu | exact Hlen].
Qed.

Lemma reduce_lineups_unique_witness :
  unique_keys [ (KStr "4-3-3", VInt 3); (KStr "4-4-2", VInt 5) ] /\ 2 <= 3.
Proof.
  apply (reduce_lineups_unique (sample_club_data 18 10 2 30 sample_lineups)
           (VList sample_lineups) 3); reflexivity.
Defined.

(** ** Requests and results of the search loop *)

Lemma bind_sent {A B} (m : M A) (f : A -> M B) :
  requests_sent (bind m f) =
  (requests_sent m ++
   match outcome m with
   | Ok a => requests_sent (f a)
   | Raise _ => []
   end)%list.
Proof.
  destruct m as [sent [a|e]]; cbn.
  - now destruct (f a).
  - now rewrite app_nil_r.
Qed.

Lemma min_from_in (f : value -> result nat) (l : list value) :
  forall best best_key r,
    min_from f best best_key l = Ok r ->
    r = best \/ (In r l /\ exists k, f r = Ok k).
Proof.
  induction l as [|x l IH]; intros best best_key r H.
  - injection H as <-. now left.
  - cbn [min_from] in H. apply rbind_ok in H. destruct H as [k [Hk H]].
    destruct (Nat.ltb k best_key).
    + destruct (IH _ _ _ H) as [->|[Hin Hkey]].
      * right. split; [now left | now exists k].
      * right. split; [now right | exact Hkey].
    + destruct (IH _ _ _ H) as [->|[Hin Hkey]].
      * now left.
      * right. split; [now right | exact Hkey].
Qed.

Lemma py_min_in (f : value -> result nat) (iterable r : value) :
  py_min f iterable = Ok r ->
  exists items k, py_iter iterable = Ok items /\ In r items /\ f r = Ok k.
Proof.
  unfold py_min. intro H. apply rbind_ok in H. destruct H as [items [Hit H]].
  destruct items as [|x l]; [discriminate H|].
  apply rbind_ok in H. destruct H as [k [Hk H]].
  exists (x :: l). destruct (min_from_in f l x k r H) as [->|[Hin [k' Hk']]].
  - exists k. repeat split; [exact Hit | now left | exact Hk].
  - exists k'. repeat split; [exact Hit | now right | exact Hk'].
Qed.

Section LoopFacts.
Variable requests_get : request -> result response.
Variable unidecode : string -> string.
Variable season : string.
Variable league_id : Z.

Lemma search_round_sent (search_name : string) :
  requests_sent (search_round requests_get unidecode season league_id search_name) =
  [query season league_id search_name].
Proof. now rewrite search_round_spec. Qed.

Lemma search_loop_sent_bound (search_name : string) :
  List.length (requests_sent
                 (search_loop requests_get unidecode season league_id search_name))
  <= String.length search_name.
Proof.
  induction search_name as [|a rest IH]; [cbn; lia|].
  cbn [search_loop]. rewrite bind_sent, search_round_sent, length_app.
  cbn [List.length String.length].
  destruct (outcome (search_round requests_get unidecode season league_id (String a rest)))
    as [[best|]|e]; cbn [requests_sent ret fst List.length]; lia.
Qed.

Lemma search_loop_sent_first (a : ascii) (rest : string) :
  hd_error (requests_sent
              (search_loop requests_get unidecode season league_id (String a rest))) =
  Some (query season league_id (String a rest)).
Proof.
  cbn [search_loop]. now rewrite bind_sent, search_round_sent.
Qed.

Lemma search_loop_origin (search_name : string) (v : value) :
  outcome (search_loop requests_get unidecode season league_id search_name) = Ok v ->
  v = VNone \/
  exists k found items distance_to_v,
    k < String.length search_name /\
    fetched requests_get season league_id (trimmed k search_name) = Ok found /\
    truthy found = true /\
    py_iter found = Ok items /\
    In v items /\
    name_distance unidecode (trimmed k search_name) v = Ok distance_to_v.
Proof.
  induction search_name as [|a rest IH]; intro H.
  - left. now injection H as <-.
  - cbn [search_loop] in H. apply bind_ok in H. destruct H as [round [Hround H]].
    rewrite search_round_spec in Hround. cbn [outcome snd] in Hround.
    destruct (fetched requests_get season league_id (String a rest)) as [found|e] eqn:Hf;
      [|discriminate Hround].
    destruct (truthy found) eqn:Ht.
    + apply rbind_ok in Hround. destruct Hround as [best [Hmin Hbest]].
      injection Hbest as <-. cbn in H. injection H as <-.
      destruct (py_min_in _ _ _ Hmin) as [items [d [Hit [Hin Hd]]]].
      right. exists 0, found, items, d. cbn [String.length].
      repeat split; try assumption. lia.
    + injection Hround as <-. destruct (IH H) as [->|[k [found' [items [d Hk]]]]].
      * now left.
      * right. exists (S k), found', items, d. rewrite trimmed_cons.
        cbn [String.length]. destruct Hk as [Hlt Hrest]. split; [lia | exact Hrest].
Qed.

Lemma search_loop_raise (skipped search_name : string) (e : exn) :
  all_empty_before requests_get season league_id skipped search_name ->
  search_name <> "" ->
  fetched requests_get season league_id search_name = Raise e ->
  outcome (search_loop requests_get unidecode season league_id (skipped ++ search_name)) =
    Raise e /\
  List.length (requests_sent
    (search_loop requests_get unidecode season league_id (skipped ++ search_name))) =
    S (String.length skipped).
Proof.
  intros Hempty Hne Hf. induction skipped as [|a skipped IH].
  - destruct search_name as [|b rest]; [contradiction|]. cbn [append search_loop].
    split.
    + apply bind_raise. rewrite search_round_spec. cbn [outcome snd]. now rewrite Hf.
    + rewrite bind_sent, search_round_spec. cbn [requests_sent outcome fst snd].
      now rewrite Hf.
  - cbn [append]. rewrite loop_miss.
    + cbn [outcome requests_sent fst snd List.length String.length].
      destruct IH as [Hout Hlen].
      * intros dropped rest Hsplit Hne'.
        apply (Hempty (String a dropped) rest); [now rewrite Hsplit | exact Hne'].
      * split; [exact Hout | now rewrite Hlen].
    + apply (Hempty "" (String a skipped)); [reflexivity | discriminate].
Qed.
End LoopFacts.

(** X4.  [get_player_stats] sends at most one request per character of its
    two transliterated search strings, the joined name of the first pass
    and the last name of the second, whatever the API answers. *)
Theorem get_player_stats_request_bound
        (requests_get : request -> result response) (unidecode : string -> string)
        (player_full_name season league_name : string) :
  exists first_name last_name,
    first_and_last (split_space player_full_name) = Ok (first_name, last_name) /\
    List.length (requests_sent
                   (get_player_stats requests_get unidecode
                      player_full_name season league_name))
    <= String.length (unidecode (first_name ++ " " ++ last_name))
       + String.length (unidecode last_name).
Proof.
  destruct (initial_search_name player_full_name) as [first_name [last_name [Hnames _]]].
  exists first_name, last_name. split; [exact Hnames|].
  unfold get_player_stats.
  destruct (league_get LEAGUE_IDS league_name) as [league_id|]; [|cbn; lia].
  destruct (league_id =? 0)%Z; [cbn; lia|].
  rewrite Hnames. cbn [lift bind]. unfold get_player_stats_from_api.
  pose proof (search_loop_sent_bound requests_get unidecode season league_id
                (unidecode (first_name ++ " " ++ last_name))) as H1.
  pose proof (search_loop_sent_bound requests_get unidecode season league_id
                (unidecode last_name)) as H2.
  destruct (search_loop requests_get unidecode season league_id
              (unidecode (first_name ++ " " ++ last_name))) as [sent1 [v1|e1]];
    cbn [requests_sent fst] in H1; cbn [bind requests_sent fst app]; [|lia].
  destruct (is_none v1).
  - destruct (search_loop requests_get unidecode season league_id (unidecode last_name))
      as [sent2 [v2|e2]]; cbn [requests_sent fst] in H2; cbn [bind].
    + destruct (is_none v2); [|destruct (normalize_player v2)];
        cbn [ret lift requests_sent fst]; rewrite ?app_nil_r, ?length_app; lia.
    + cbn [requests_sent fst]. rewrite length_app. lia.
  - cbn [ret bind is_none]. destruct (is_none v1); [|destruct (normalize_player v1)];
      cbn [ret lift requests_sent fst]; rewrite ?app_nil_r; lia.
Qed.

(** X5.  Whatever [get_player_stats_from_api] returns is either [None] or an
    element of a response it fetched: the candidate comes from the truthy
    answer to one of the trimmed search strings, and it is one whose
    distance to that search string could be computed. *)
Theorem search_result_origin
        (requests_get : request -> result response) (unidecode : string -> string)
        (player_name season : string) (league_id : Z) (v : value) :
  outcome (get_player_stats_from_api requests_get unidecode player_name season league_id)
    = Ok v ->
  v = VNone \/
  exists k found items distance_to_v,
    k < String.length (unidecode player_name) /\
    fetched requests_get season league_id (trimmed k (unidecode player_name)) = Ok found /\
    truthy found = true /\
    py_iter found = Ok items /\
    In v items /\
    name_distance unidecode (trimmed k (unidecode player_name)) v = Ok distance_to_v.
Proof.
  unfold get_player_stats_from_api. apply search_loop_origin.
Qed.

Lemma search_result_origin_witness :
  sample_candidate "Muller" [] = VNone \/
  exists k found items distance_to_v,
    k < String.length (unidecode_sample muller_accented) /\
    fetched network_muller "2023" 78 (trimmed k (unidecode_sample muller_accented))
      = Ok found /\
    truthy found = true /\
    py_iter found = Ok items /\
    In (sample_candidate "Muller" []) items /\
    name_distance unidecode_sample (trimmed k (unidecode_sample muller_accented))
      (sample_candidate "Muller" []) = Ok distance_to_v.
Proof.
  apply (search_result_origin network_muller unidecode_sample muller_accented "2023" 78).
  vm_compute. reflexivity.
Defined.

(** X6.  A failing request is not retried: when the rounds before it came
    back empty and the request for a search string raises, the search
    raises that exception, having sent one request per round so far. *)
Theorem search_error_stops
        (requests_get : request -> result response) (unidecode : string -> string)
        (player_name season : string) (league_id : Z)
        (skipped search_name : string) (e : exn) :
  unidecode player_name = skipped ++ search_name ->
  all_empty_before requests_get season league_id skipped search_name ->
  search_name <> "" ->
  requests_get (query season league_id search_name) = Raise e ->
  outcome (get_player_stats_from_api requests_get unidecode player_name season league_id)
    = Raise e /\
  List.length (requests_sent
    (get_player_stats_from_api requests_get unidecode player_name season league_id)) =
    S (String.length skipped).
Proof.
  intros Hname Hempty Hne Hraise. unfold get_player_stats_from_api. rewrite Hname.
  apply search_loop_raise; try assumption.
  unfold fetched. unfold query in Hraise. now rewrite Hraise.
Qed.

Lemma search_error_stops_witness :
  outcome (get_player_stats_from_api network_down unidecode_sample "Ronaldo" "2023" 39)
    = Raise RequestException /\
  List.length (requests_sent
    (get_player_stats_from_api network_down unidecode_sample "Ronaldo" "2023" 39)) = 1.
Proof.
  apply (search_error_stops network_down unidecode_sample "Ronaldo" "2023" 39
           "" "Ronaldo" RequestException).
  - reflexivity.
  - intros dropped rest Hsplit Hne. destruct dropped; [|discriminate Hsplit].
    cbn in Hsplit. now subst rest.
  - discriminate.
  - reflexivity.
Defined.

(** X7.  When the first search finds a candidate, no second search is made:
    [get_player_stats] sends the requests of the first pass only and its
    result is the normalization of that candidate. *)
Theorem get_player_stats_first_pass
        (requests_get : request -> result response) (unidecode : string -> string)
        (player_full_name season league_name : string) (league_id : Z)
        (first_name last_name : string) (candidate : value) :
  league_get LEAGUE_IDS league_name = Some league_id ->
  league_id <> 0%Z ->
  first_and_last (split_space player_full_name) = Ok (first_name, last_name) ->
  outcome (get_player_stats_from_api requests_get unidecode
             (first_name ++ " " ++ last_name) season league_id) = Ok candidate ->
  is_none candidate = false ->
  get_player_stats requests_get unidecode player_full_name season league_name =
  (requests_sent (get_player_stats_from_api requests_get unidecode
                    (first_name ++ " " ++ last_name) season league_id),
   normalize_player candidate).
Proof.
  intros Hleague Hid Hnames Hfirst Hsome. unfold get_player_stats.
  rewrite Hleague. destruct (Z.eqb_spec league_id 0) as [|_]; [contradiction|].
  rewrite Hnames. cbn [lift bind].
  destruct (get_player_stats_from_api requests_get unidecode
              (first_name ++ " " ++ last_name) season league_id) as [sent1 [v1|e1]];
    cbn in Hfirst; [|discriminate Hfirst].
  injection Hfirst as ->. cbn [bind ret]. rewrite Hsome. cbn [bind ret]. rewrite Hsome.
  cbn [requests_sent fst lift].
  destruct (normalize_player candidate); now rewrite !app_nil_r.
Qed.

Lemma get_player_stats_first_pass_witness :
  get_player_stats network_muller unidecode_sample muller_accented "2023" "Bundesliga" =
  (requests_sent (get_player_stats_from_api network_muller unidecode_sample
                    ("" ++ " " ++ muller_accented) "2023" 78),
   normalize_player (sample_candidate "Muller" [])).
Proof.
  apply (get_player_stats_first_pass network_muller unidecode_sample
           muller_accented "2023" "Bundesliga" 78 "" muller_accented).
  - reflexivity.
  - discriminate.
  - reflexivity.
  - vm_compute. reflexivity.
  - reflexivity.
Defined.

Lemma get_player_stats_second_pass_witness :
  List.length (requests_sent
    (get_player_stats network_empty unidecode_sample "Rico Lewis" "2023" "Premier League")) =
  10 + 5 /\
  outcome (get_player_stats network_empty unidecode_sample
             "Rico Lewis" "2023" "Premier League") =
  Ok (VStr (no_stats_message "Rico Lewis" "2023")).
Proof.
  destruct (get_player_stats_second_pass network_empty unidecode_sample
              "Rico Lewis" "2023" "Premier League" 39 "Rico" "Lewis")
    as [Hsent Hout]; try reflexivity; try discriminate.
  split.
  - rewrite Hsent. reflexivity.
  - apply Hout. reflexivity.
Defined.

(** ** League names *)

Lemma league_get_none (table : list (string * Z)) (name : string) :
  ~ In name (map fst table) -> league_get table name = None.
Proof.
  induction table as [|[n id] table IH]; [reflexivity|].
  cbn [map fst In league_get]. intro Hnot.
  destruct (String.eqb_spec n name) as [->|_]; [exfalso; apply Hnot; now left|].
  apply IH. intro Hin. apply Hnot. now right.
Qed.

(** X8.  A league name outside the ten of [LEAGUE_IDS] is answered with the
    "Invalid league name" string by [get_player_stats] and by
    [get_team_stats] without any request being sent; each of the ten names
    has an identifier that passes the [if not league_id] test. *)
Theorem invalid_league_sends_nothing
        (requests_get : request -> result response) (unidecode : string -> string)
        (league_name : string) :
  (~ In league_name (map fst LEAGUE_IDS) ->
   forall player_full_name club_name club_country season,
     get_player_stats requests_get unidecode player_full_name season league_name =
       ([], Ok (VStr (invalid_league_message league_name))) /\
     get_team_stats requests_get club_name club_country season league_name =
       ([], Ok (VStr (invalid_league_message league_name)))) /\
  (In league_name (map fst LEAGUE_IDS) ->
   exists league_id,
     league_get LEAGUE_IDS league_name = Some league_id /\ league_id <> 0%Z).
Proof.
  split.
  - intros Hnot player_full_name club_name club_country season.
    unfold get_player_stats, get_team_stats.
    now rewrite (league_get_none LEAGUE_IDS league_name Hnot).
  - cbn [map fst LEAGUE_IDS In]. intro Hin.
    repeat (destruct Hin as [<-|Hin]; [eexists; split; [reflexivity | discriminate]|]).
    contradiction.
Qed.

Lemma invalid_league_sends_nothing_witness :
  get_player_stats network_empty unidecode_sample "Ronaldo" "2023" "La Liga" =
    ([], Ok (VStr (invalid_league_message "La Liga"))) /\
  get_team_stats network_empty "Real Madrid" "Spain" "2023" "La Liga" =
    ([], Ok (VStr (invalid_league_message "La Liga"))).
Proof.
  apply (proj1 (invalid_league_sends_nothing network_empty unidecode_sample "La Liga")).
  cbn [map fst LEAGUE_IDS In]. intro H.
  repeat (destruct H as [H|H]; [discriminate H|]). exact H.
Defined.

(** ** The paths of [get_team_stats] *)

Ltac run_requests :=
  repeat (cbn [bind lift ret requests_sent outcome fst snd app];
          match goal with
          | |- context [match ?x with Ok _ => _ | Raise _ => _ end] => destruct x
          | |- context [if ?b then _ else _] => destruct b
          end);
  cbn [bind lift ret requests_sent outcome fst snd app].

Lemma get_club_id_sent (requests_get : request -> result response)
      (club_name club_country : string) :
  requests_sent (get_club_id requests_get club_name club_country) =
  [club_request club_name club_country].
Proof.
  unfold get_club_id, http_get, club_request. run_requests; reflexivity.
Qed.

Lemma get_club_logo_sent (requests_get : request -> result response)
      (club_name club_country : string) :
  requests_sent (get_club_logo requests_get club_name club_country) =
  [club_request club_name club_country].
Proof.
  unfold get_club_logo, http_get, club_request. run_requests; reflexivity.
Qed.

Lemma get_club_stats_sent (requests_get : request -> result response)
      (club_id : value) (season : string) (league_id : Z) :
  requests_sent (get_club_stats_from_api requests_get club_id season league_id) =
  [statistics_request club_id season league_id].
Proof.
  unfold get_club_stats_from_api, http_get, statistics_request. run_requests; reflexivity.
Qed.

(** X9.  [get_team_stats] sends at most two requests, the club lookup and
    then the statistics; when the lookup gives [None] it stops after the
    first and answers "No club found for <club> in <country>.". *)
Theorem get_team_stats_requests
        (requests_get : request -> result response)
        (club_name club_country season league_name : string) :
  (exists sent,
      requests_sent (get_team_stats requests_get club_name club_country season league_name)
        = sent /\
      List.length sent <= 2 /\
      forall req, In req sent ->
                  req = club_request club_name club_country \/
                  exists club_id league_id,
                    req = statistics_request club_id season league_id) /\
  (forall league_id,
      league_get LEAGUE_IDS league_name = Some league_id ->
      league_id <> 0%Z ->
      outcome (get_club_id requests_get club_name club_country) = Ok VNone ->
      get_team_stats requests_get club_name club_country season league_name =
      ([club_request club_name club_country],
       Ok (VStr ("No club found for " ++ club_name ++ " in " ++ club_country ++ ".")))).
Proof.
  split.
  - eexists. split; [reflexivity|]. unfold get_team_stats.
    destruct (league_get LEAGUE_IDS league_name) as [league_id|];
      [|split; [cbn; lia | intros req []]].
    destruct (league_id =? 0)%Z; [split; [cbn; lia | intros req []]|].
    rewrite bind_sent, get_club_id_sent.
    destruct (outcome (get_club_id requests_get club_name club_country)) as [club_id|e].
    + destruct (is_none club_id).
      * split; [cbn; lia|]. intros req [<-|[]]. now left.
      * rewrite bind_sent, get_club_stats_sent.
        destruct (outcome (get_club_stats_from_api requests_get club_id season league_id))
          as [club_data|e].
        -- assert (Hnone : requests_sent
                     (has_team <-- lift (contains_str club_data "team") ;;
                      (if negb has_team
                       then ret (VStr "Unexpected API response format.")
                       else if is_none club_data
                            then ret (VStr (no_stats_message club_name season))
                            else lift (normalize_team club_data))) = []).
           { destruct (contains_str club_data "team") as [[|]|]; cbn; try reflexivity.
             destruct (is_none club_data); reflexivity. }
           rewrite Hnone. split; [cbn; lia|].
           intros req [<-|[<-|[]]]; [now left | right; eauto].
        -- split; [cbn; lia|]. intros req [<-|[<-|[]]]; [now left | right; eauto].
    + split; [cbn; lia|]. intros req [<-|[]]. now left.
  - intros league_id Hleague Hid Hnone. unfold get_team_stats.
    rewrite Hleague. destruct (Z.eqb_spec league_id 0) as [|_]; [contradiction|].
    pose proof (get_club_id_sent requests_get club_name club_country) as Hsent.
    destruct (get_club_id requests_get club_name club_country) as [sent [v|e]];
      cbn in Hnone, Hsent; [|discriminate Hnone].
    injection Hnone as ->. subst sent. reflexivity.
Qed.

Lemma get_team_stats_requests_witness :
  get_team_stats network_empty "Atlantis FC" "Nowhere" "2023" "Premier League" =
  ([club_request "Atlantis FC" "Nowhere"],
   Ok (VStr "No club found for Atlantis FC in Nowhere.")).
Proof.
  apply (proj2 (get_team_stats_requests network_empty
                  "Atlantis FC" "Nowhere" "2023" "Premier League") 39%Z).
  - reflexivity.
  - discriminate.
  - reflexivity.
Defined.

(** X10.  When the club is found and the statistics fetch gives a
    dictionary, [get_team_stats] answers "Unexpected API response format."
    if the dictionary has no [team] key and otherwise normalizes it. *)
Theorem get_team_stats_found
        (requests_get : request -> result response)
        (club_name club_country season league_name : string)
        (league_id : Z) (club_id : value) (d : dict) :
  league_get LEAGUE_IDS league_name = Some league_id ->
  league_id <> 0%Z ->
  outcome (get_club_id requests_get club_name club_country) = Ok club_id ->
  is_none club_id = false ->
  outcome (get_club_stats_from_api requests_get club_id season league_id) = Ok (VDict d) ->
  get_team_stats requests_get club_name club_country season league_name =
  ([club_request club_name club_country; statistics_request club_id season league_id],
   match dict_find d "team" with
   | Some _ => normalize_team (VDict d)
   | None => Ok (VStr "Unexpected API response format.")
   end).
Proof.
  intros Hleague Hid Hclub Hsome Hstats. unfold get_team_stats.
  rewrite Hleague. destruct (Z.eqb_spec league_id 0) as [|_]; [contradiction|].
  pose proof (get_club_id_sent requests_get club_name club_country) as Hsent1.
  destruct (get_club_id requests_get club_name club_country) as [sent1 [v|e]];
    cbn in Hclub, Hsent1; [|discriminate Hclub].
  injection Hclub as ->. subst sent1. cbn [bind]. rewrite Hsome.
  pose proof (get_club_stats_sent requests_get club_id season league_id) as Hsent2.
  destruct (get_club_stats_from_api requests_get club_id season league_id)
    as [sent2 [v|e]]; cbn in Hstats, Hsent2; [|discriminate Hstats].
  injection Hstats as ->. subst sent2. cbn [bind lift contains_str].
  destruct (dict_find d "team"); cbn [negb bind ret is_none lift app]; [|reflexivity].
  now destruct (normalize_team (VDict d)).
Qed.

Lemma get_team_stats_found_witness :
  get_team_stats network_odd_statistics "Manchester United" "England" "2023"
    "Premier League" =
  ([club_request "Manchester United" "England"; statistics_request (VInt 33) "2023" 39],
   Ok (VStr "Unexpected API response format.")).
Proof.
  apply (get_team_stats_found network_odd_statistics "Manchester United" "England"
           "2023" "Premier League" 39 (VInt 33) [ (KStr "form", VStr "WWL") ]);
    try reflexivity; discriminate.
Defined.

(** With the statistics in place the record is the normalized answer. *)
Example get_team_stats_sample :
  outcome (get_team_stats network_team "Manchester United" "England" "2023"
             "Premier League") =
  normalize_team (sample_club_data 18 10 2 30 sample_lineups).
Proof. vm_compute. reflexivity. Qed.

(** ** The club lookup *)

(** X11.  [get_club_id] and [get_club_logo] each send the same single
    request.  An answer whose status is not 200 gives [None] without its
    body being decoded; with status 200 a [results] count of 0 or less
    gives [None], and a positive one gives the [id], respectively the
    [logo], of the first team of the response. *)
Theorem club_lookup
        (requests_get : request -> result response) (club_name club_country : string) :
  requests_sent (get_club_id requests_get club_name club_country) =
    [club_request club_name club_country] /\
  requests_sent (get_club_logo requests_get club_name club_country) =
    [club_request club_name club_country] /\
  (forall resp,
      requests_get (club_request club_name club_country) = Ok resp ->
      status_code resp <> 200%Z ->
      outcome (get_club_id requests_get club_name club_country) = Ok VNone /\
      outcome (get_club_logo requests_get club_name club_country) = Ok VNone) /\
  (forall resp body n,
      requests_get (club_request club_name club_country) = Ok resp ->
      status_code resp = 200%Z ->
      json resp = Ok body ->
      getitem body "results" = Ok (VInt n) ->
      ((n <= 0)%Z ->
       outcome (get_club_id requests_get club_name club_country) = Ok VNone /\
       outcome (get_club_logo requests_get club_name club_country) = Ok VNone) /\
      ((0 < n)%Z ->
       outcome (get_club_id requests_get club_name club_country) =
         path body [KStr "response"; KInt 0; KStr "team"; KStr "id"] /\
       outcome (get_club_logo requests_get club_name club_country) =
         path body [KStr "response"; KInt 0; KStr "team"; KStr "logo"])).
Proof.
  split; [apply get_club_id_sent|]. split; [apply get_club_logo_sent|]. split.
  - intros resp Hresp Hstatus. unfold get_club_id, get_club_logo, http_get.
    fold (club_request club_name club_country). rewrite Hresp. cbn [bind].
    destruct (Z.eqb_spec (status_code resp) 200) as [|_]; [contradiction|].
    split; reflexivity.
  - intros resp body n Hresp Hstatus Hjson Hresults.
    unfold get_club_id, get_club_logo, http_get.
    fold (club_request club_name club_country). rewrite Hresp. cbn [bind].
    rewrite Hstatus, Z.eqb_refl, Hjson. cbn [bind lift]. rewrite Hresults.
    cbn [bind lift gt_zero as_int rbind]. split; intro Hn.
    + destruct (Z.ltb_spec 0 n) as [|_]; [lia|]. split; reflexivity.
    + destruct (Z.ltb_spec 0 n) as [_|]; [|lia]. cbn [bind lift].
      split; now destruct (path body _).
Qed.

Lemma club_lookup_witness :
  outcome (get_club_id network_server_error "Manchester United" "England") = Ok VNone /\
  outcome (get_club_logo network_server_error "Manchester United" "England") = Ok VNone.
Proof.
  apply (proj1 (proj2 (proj2 (club_lookup network_server_error
                                "Manchester United" "England")))
           (mkResponse 500 (Raise ValueError))).
  - reflexivity.
  - discriminate.
Defined.

(** ** The roster pages *)

Section RosterFacts.
Variable requests_get : request -> result response.
Variable club_id : value.
Variable season : string.
Variable league_id : Z.

Lemma roster_page_spec (page current total : Z) (players : list value) :
  roster_page_is requests_get club_id season league_id page current total players ->
  roster_page requests_get club_id season league_id page =
  ([roster_request club_id season league_id page],
   Ok (Some (VList players, (current <? total)%Z))).
Proof.
  intros [resp [body [paging [Hresp [Hjson [Hfound [Hne [Hpaging [Hcur Htot]]]]]]]]].
  unfold roster_page, http_get. rewrite Hresp. cbn [bind]. rewrite Hjson.
  cbn [bind lift dict_get getitem]. rewrite Hfound. cbn [bind truthy].
  destruct players as [|x l]; [contradiction|].
  cbn [bind lift dict_get]. rewrite Hpaging. cbn [bind lift dict_get].
  rewrite Hcur. cbn [bind lift dict_get]. rewrite Htot.
  reflexivity.
Qed.

Lemma roster_page_empty_spec (page : Z) :
  roster_page_empty requests_get club_id season league_id page ->
  roster_page requests_get club_id season league_id page =
  ([roster_request club_id season league_id page], Ok None).
Proof.
  intros [resp [body [found [Hresp [Hjson [Hfound Hfalse]]]]]].
  unfold roster_page, http_get. rewrite Hresp. cbn [bind]. rewrite Hjson.
  cbn [bind lift]. rewrite Hfound. cbn [bind]. now rewrite Hfalse.
Qed.

Lemma roster_pages (pages : list (list value)) :
  forall (page : Z) (depth : nat),
    pages <> [] ->
    pages_from requests_get club_id season league_id
      page (page + Z.of_nat (List.length pages) - 1) pages ->
    List.length pages <= depth ->
    get_players_from_api requests_get depth club_id season league_id page =
    Some (map (fun i => roster_request club_id season league_id (page + Z.of_nat i))
              (seq 0 (List.length pages)),
          Ok (VList (List.concat pages))).
Proof.
  induction pages as [|players rest IH]; intros page depth Hne Hpages Hdepth;
    [contradiction|].
  destruct depth as [|depth]; [cbn in Hdepth; lia|].
  destruct Hpages as [Hpage Hrest]. cbn [get_players_from_api].
  rewrite (roster_page_spec _ _ _ _ Hpage).
  destruct rest as [|players' rest].
  - replace (page <? page + Z.of_nat (List.length [players]) - 1)%Z with false
      by (symmetry; apply Z.ltb_ge; cbn; lia).
    cbn. now rewrite Z.add_0_r, app_nil_r.
  - replace (page <? page + Z.of_nat (List.length (players :: players' :: rest)) - 1)%Z
      with true by (symmetry; apply Z.ltb_lt; cbn [List.length]; lia).
    cbn [has_extend].
    rewrite (IH (page + 1)%Z depth).
    + cbn [extend py_iter rbind List.concat app].
      change (List.length (players :: players' :: rest))
        with (S (List.length (players' :: rest))).
      rewrite <- cons_seq, <- seq_shift. cbn [map]. rewrite map_map.
      rewrite Z.add_0_r. do 3 f_equal. apply map_ext. intro i.
      f_equal. lia.
    + discriminate.
    + replace (page + 1 + Z.of_nat (List.length (players' :: rest)) - 1)%Z
        with (page + Z.of_nat (List.length (players :: players' :: rest)) - 1)%Z
        by (cbn [List.length]; lia).
      exact Hrest.
    + cbn [List.length] in *. lia.
Qed.

Lemma roster_endless (depth : nat) :
  forall page,
    (forall later, (page <= later)%Z ->
                   roster_page_more requests_get club_id season league_id later) ->
    get_players_from_api requests_get depth club_id season league_id page = None.
Proof.
  induction depth as [|depth IH]; intros page Hmore; [reflexivity|].
  destruct (Hmore page (Z.le_refl page)) as [current [total [players [Hpage Hlt]]]].
  cbn [get_players_from_api]. rewrite (roster_page_spec _ _ _ _ Hpage).
  replace (current <? total)%Z with true by (symmetry; now apply Z.ltb_lt).
  cbn [has_extend]. rewrite IH; [reflexivity|].
  intros later Hle. apply Hmore. lia.
Qed.
End RosterFacts.

(** X12.  For a roster that the API serves in [n] consecutive non-empty
    pages, each saying it is page [i] of [n], [get_players_from_api]
    started at page 1 returns the players of all pages in page order after
    exactly [n] requests, for pages 1 to [n], provided the calls may nest
    [n] deep. *)
Theorem roster_all_pages
        (requests_get : request -> result response) (club_id : value)
        (season : string) (league_id : Z) (pages : list (list value)) (depth : nat) :
  pages <> [] ->
  pages_from requests_get club_id season league_id
    1 (Z.of_nat (List.length pages)) pages ->
  List.length pages <= depth ->
  get_players_from_api requests_get depth club_id season league_id 1 =
  Some (map (fun i => roster_request club_id season league_id (Z.of_nat (S i)))
            (seq 0 (List.length pages)),
        Ok (VList (List.concat pages))).
Proof.
  intros Hne Hpages Hdepth.
  rewrite (roster_pages requests_get club_id season league_id pages 1 depth Hne).
  - do 2 f_equal. apply map_ext. intro i. f_equal. lia.
  - replace (1 + Z.of_nat (List.length pages) - 1)%Z with (Z.of_nat (List.length pages))
      by lia.
    exact Hpages.
  - exact Hdepth.
Qed.

Lemma roster_all_pages_witness :
  get_players_from_api network_roster 1000 (VInt 33) "2023" 39 1 =
  Some ([ roster_request (VInt 33) "2023" 39 1; roster_request (VInt 33) "2023" 39 2 ],
        Ok (VList [ sample_candidate "Marcus Rashford" [];
                    sample_candidate "Bruno Fernandes" [];
                    sample_candidate "Luke Shaw" [] ])).
Proof.
  apply (roster_all_pages network_roster (VInt 33) "2023" 39
           [ [ sample_candidate "Marcus Rashford" []; sample_candidate "Bruno Fernandes" [] ];
             [ sample_candidate "Luke Shaw" [] ] ] 1000).
  - discriminate.
  - split; [|split; [|exact I]].
    + do 3 eexists. repeat split; try reflexivity. discriminate.
    + do 3 eexists. repeat split; try reflexivity. discriminate.
  - cbn. lia.
Defined.

(** X13.  When every page from [page] on promises a further page,
    [get_players_from_api] never returns: whatever depth of nesting is
    allowed, the calls use it up. *)
Theorem roster_never_ends
        (requests_get : request -> result response) (club_id : value)
        (season : string) (league_id : Z) (page : Z) (depth : nat) :
  (forall later, (page <= later)%Z ->
                 roster_page_more requests_get club_id season league_id later) ->
  get_players_from_api requests_get depth club_id season league_id page = None.
Proof.
  intro Hmore. now apply roster_endless.
Qed.

Lemma roster_never_ends_witness :
  get_players_from_api network_endless 1000 (VInt 33) "2023" 39 1 = None.
Proof.
  apply (roster_never_ends network_endless (VInt 33) "2023" 39 1 1000).
  intros later _. exists 1%Z, 2%Z, [ sample_candidate "Marcus Rashford" [] ].
  split; [|reflexivity].
  do 3 eexists. repeat split; try reflexivity. discriminate.
Defined.

(** X14.  A page with players but without a [paging] entry makes
    [get_players_from_api] raise [TypeError]: both sides of the comparison
    are [None]. *)
Theorem roster_without_paging
        (requests_get : request -> result response) (club_id : value)
        (season : string) (league_id page : Z) (depth : nat)
        (resp : response) (body : dict) (found : value) :
  requests_get (roster_request club_id season league_id page) = Ok resp ->
  json resp = Ok (VDict body) ->
  dict_find body "response" = Some found ->
  truthy found = true ->
  dict_find body "paging" = None ->
  get_players_from_api requests_get (S depth) club_id season league_id page =
  Some ([roster_request club_id season league_id page], Raise TypeError).
Proof.
  intros Hresp Hjson Hfound Htrue Hpaging.
  cbn [get_players_from_api]. unfold roster_page, http_get.
  rewrite Hresp. cbn [bind]. rewrite Hjson. cbn [bind lift dict_get getitem].
  rewrite Hfound. cbn [bind]. rewrite Htrue. cbn [bind lift dict_get]. rewrite Hpaging.
  reflexivity.
Qed.

Lemma roster_without_paging_witness :
  get_players_from_api network_no_paging 1000 (VInt 33) "2023" 39 1 =
  Some ([roster_request (VInt 33) "2023" 39 1], Raise TypeError).
Proof.
  eapply (roster_without_paging network_no_paging (VInt 33) "2023" 39 1 999);
    reflexivity.
Defined.

(** X15.  An empty first page gives [None] after one request; an empty
    page that the page before it promised makes [get_players_from_api]
    raise [TypeError], as [None] is handed to [extend], after the two
    requests. *)
Theorem roster_empty_page
        (requests_get : request -> result response) (club_id : value)
        (season : string) (league_id page : Z) (depth : nat) :
  (roster_page_empty requests_get club_id season league_id page ->
   get_players_from_api requests_get (S depth) club_id season league_id page =
   Some ([roster_request club_id season league_id page], Ok VNone)) /\
  (roster_page_more requests_get club_id season league_id page ->
   roster_page_empty requests_get club_id season league_id (page + 1) ->
   get_players_from_api requests_get (S (S depth)) club_id season league_id page =
   Some ([ roster_request club_id season league_id page;
           roster_request club_id season league_id (page + 1) ],
         Raise TypeError)).
Proof.
  split.
  - intro Hempty. cbn [get_players_from_api].
    now rewrite (roster_page_empty_spec _ _ _ _ _ Hempty).
  - intros [current [total [players [Hpage Hlt]]]] Hempty.
    cbn [get_players_from_api].
    rewrite (roster_page_spec _ _ _ _ _ _ _ _ Hpage).
    replace (current <? total)%Z with true by (symmetry; now apply Z.ltb_lt).
    cbn [has_extend]. now rewrite (roster_page_empty_spec _ _ _ _ _ Hempty).
Qed.

Lemma roster_empty_page_witness :
  get_players_from_api network_short 1000 (VInt 33) "2023" 39 1 =
  Some ([ roster_request (VInt 33) "2023" 39 1; roster_request (VInt 33) "2023" 39 (1 + 1) ],
        Raise TypeError).
Proof.
  apply (proj2 (roster_empty_page network_short (VInt 33) "2023" 39 1 998)).
  - exists 1%Z, 2%Z, [ sample_candidate "Marcus Rashford" [] ].
    split; [|reflexivity].
    do 3 eexists. repeat split; try reflexivity. discriminate.
  - do 3 eexists. repeat split; reflexivity.
Defined.

(** ** Integer division to a double *)

Section Rounding.
Local Open Scope Z_scope.

Lemma pow2_pos (e : Z) : 0 < pow2 e.
Proof. unfold pow2. apply Z.pow_pos_nonneg; lia. Qed.

Lemma pow2_nonpos (e : Z) : e <= 0 -> pow2 e = 1.
Proof. intro H. unfold pow2. now rewrite Z.max_l by lia. Qed.

Lemma pow2_nonneg (e : Z) : 0 <= e -> pow2 e = 2 ^ e.
Proof. intro H. unfold pow2. now rewrite Z.max_r by lia. Qed.

Lemma pow2_succ (e : Z) : 0 <= e -> pow2 (e + 1) = 2 * pow2 e.
Proof.
  intro H. rewrite !pow2_nonneg by lia. rewrite Z.pow_add_r by lia. lia.
Qed.

Lemma pow2_add (x y : Z) : 0 <= x -> 0 <= y -> pow2 (x + y) = pow2 x * pow2 y.
Proof. intros. rewrite !pow2_nonneg by lia. apply Z.pow_add_r; lia. Qed.

Lemma round_half_even_spec (n d : Z) :
  0 <= n -> 0 < d ->
  2 * Z.abs (round_half_even n d * d - n) <= d /\ 0 <= round_half_even n d.
Proof.
  intros Hn Hd. unfold round_half_even.
  pose proof (Z.div_mod n d ltac:(lia)) as Hdm.
  pose proof (Z.mod_pos_bound n d Hd) as Hr.
  pose proof (Z.div_pos n d Hn Hd) as Hk.
  destruct (Z.ltb_spec (2 * (n mod d)) d); [split; nia|].
  destruct (Z.ltb_spec d (2 * (n mod d))); [split; nia|].
  destruct (Z.even (n / d)); split; nia.
Qed.

Lemma pow2_pred (e : Z) : 0 < e -> pow2 e = 2 * pow2 (e - 1).
Proof. intro H. replace e with (e - 1 + 1) at 1 by lia. apply pow2_succ. lia. Qed.

Lemma at_least_power_step (n d e : Z) :
  0 <= n -> 0 <= d -> at_least_power n d (e + 1) -> at_least_power n d e.
Proof.
  unfold at_least_power. intros Hn Hd H.
  pose proof (pow2_pos e). pose proof (pow2_pos (- e)).
  destruct (Z.le_gt_cases 0 e).
  - rewrite pow2_succ in H by lia. rewrite (pow2_nonpos (- (e + 1))) in H by lia.
    rewrite (pow2_nonpos (- e)) by lia. nia.
  - rewrite (pow2_nonpos (e + 1)) in H by lia. rewrite (pow2_nonpos e) by lia.
    rewrite (pow2_pred (- e)) by lia. replace (- e - 1) with (- (e + 1)) by lia. nia.
Qed.

Lemma binade_spec (n d : Z) :
  0 < n -> 0 < d ->
  at_least_power n d (binade n d) /\ ~ at_least_power n d (binade n d + 1).
Proof.
  intros Hn Hd. unfold binade, below_power, at_least_power.
  pose proof (Z.log2_spec n Hn) as [Hn1 Hn2].
  pose proof (Z.log2_spec d Hd) as [Hd1 Hd2].
  pose proof (Z.log2_nonneg n) as Hln. pose proof (Z.log2_nonneg d) as Hld.
  rewrite Z.pow_succ_r in Hn2, Hd2 by lia.
  set (ln := Z.log2 n) in *. set (ld := Z.log2 d) in *.
  assert (Hpos : forall x, 0 < 2 ^ x \/ x < 0) by (intro x; destruct (Z.le_gt_cases 0 x); [left; apply Z.pow_pos_nonneg; lia | now right]).
  destruct (Z.le_gt_cases ld ln) as [Hle|Hgt].
  - (* e0 >= 0 *)
    assert (Hsplit : 2 ^ ln = 2 ^ ld * 2 ^ (ln - ld)).
    { rewrite <- Z.pow_add_r by lia. f_equal. lia. }
    assert (HY : 0 < 2 ^ (ln - ld)) by (apply Z.pow_pos_nonneg; lia).
    assert (HX : 0 < 2 ^ ld) by (apply Z.pow_pos_nonneg; lia).
    rewrite (pow2_nonneg (ln - ld)) by lia. rewrite (pow2_nonpos (- (ln - ld))) by lia.
    destruct (Z.ltb_spec (n * 1) (d * 2 ^ (ln - ld))) as [Hb|Hb].
    + replace (ln - ld - 1 + 1) with (ln - ld) by lia.
      rewrite (pow2_nonneg (ln - ld)) by lia. rewrite (pow2_nonpos (- (ln - ld))) by lia.
      split; [|lia].
      destruct (Z.eq_dec ln ld) as [Heq|Hne].
      * replace (ln - ld - 1) with (-1) by lia.
        change (pow2 (-1)) with 1. change (pow2 (- (-1))) with 2.
        rewrite Heq in Hn1. lia.
      * rewrite (pow2_nonneg (ln - ld - 1)) by lia.
        rewrite (pow2_nonpos (- (ln - ld - 1))) by lia.
        assert (Hhalf : 2 ^ (ln - ld) = 2 * 2 ^ (ln - ld - 1)).
        { rewrite <- Z.pow_succ_r by lia. f_equal. lia. }
        assert (HY' : 0 < 2 ^ (ln - ld - 1)) by (apply Z.pow_pos_nonneg; lia).
        rewrite Hsplit, Hhalf in Hn1.
        assert (d * 2 ^ (ln - ld - 1) <= 2 * 2 ^ ld * 2 ^ (ln - ld - 1)) by nia.
        lia.
    + rewrite (pow2_nonneg (ln - ld)) by lia. rewrite (pow2_nonpos (- (ln - ld))) by lia.
      split; [lia|].
      rewrite pow2_succ by lia. rewrite (pow2_nonpos (- (ln - ld + 1))) by lia.
      rewrite (pow2_nonneg (ln - ld)) by lia.
      assert (2 ^ ld * 2 ^ (ln - ld) <= d * 2 ^ (ln - ld))
        by (apply Z.mul_le_mono_nonneg_r; lia).
      lia.
  - (* e0 < 0 *)
    assert (Hsplit : 2 ^ ld = 2 ^ ln * 2 ^ (ld - ln)).
    { rewrite <- Z.pow_add_r by lia. f_equal. lia. }
    assert (HY : 0 < 2 ^ (ld - ln)) by (apply Z.pow_pos_nonneg; lia).
    assert (HX : 0 < 2 ^ ln) by (apply Z.pow_pos_nonneg; lia).
    assert (Hhalf : 2 ^ (ld - ln) = 2 * 2 ^ (ld - ln - 1)).
    { rewrite <- Z.pow_succ_r by lia. f_equal. lia. }
    rewrite (pow2_nonpos (ln - ld)) by lia. rewrite (pow2_nonneg (- (ln - ld))) by lia.
    replace (- (ln - ld)) with (ld - ln) by lia.
    destruct (Z.ltb_spec (n * 2 ^ (ld - ln)) (d * 1)) as [Hb|Hb].
    + replace (ln - ld - 1 + 1) with (ln - ld) by lia.
      rewrite (pow2_nonpos (ln - ld)) by lia. rewrite (pow2_nonneg (- (ln - ld))) by lia.
      replace (- (ln - ld)) with (ld - ln) by lia.
      split; [|lia].
      rewrite (pow2_nonpos (ln - ld - 1)) by lia. rewrite (pow2_nonneg (- (ln - ld - 1))) by lia.
      replace (- (ln - ld - 1)) with (ld - ln + 1) by lia.
      rewrite Z.pow_add_r by lia. change (2 ^ 1) with 2.
      assert (2 ^ ln * 2 ^ (ld - ln) <= n * 2 ^ (ld - ln))
        by (apply Z.mul_le_mono_nonneg_r; lia).
      lia.
    + rewrite (pow2_nonpos (ln - ld)) by lia. rewrite (pow2_nonneg (- (ln - ld))) by lia.
      replace (- (ln - ld)) with (ld - ln) by lia.
      split; [lia|].
      rewrite (pow2_nonpos (ln - ld + 1)) by lia. rewrite (pow2_nonneg (- (ln - ld + 1))) by lia.
      replace (- (ln - ld + 1)) with (ld - ln - 1) by lia.
      assert (HY' : 0 < 2 ^ (ld - ln - 1)) by (apply Z.pow_pos_nonneg; lia).
      assert (n * 2 ^ (ld - ln - 1) < 2 * 2 ^ ln * 2 ^ (ld - ln - 1))
        by (apply Z.mul_lt_mono_pos_r; lia).
      rewrite Hsplit, Hhalf in Hd1. lia.
Qed.

Lemma scaled_step (c n d e : Z) :
  scaled c n d (e + 1) <-> scaled (2 * c) n d e.
Proof.
  unfold scaled. destruct (Z.le_gt_cases 0 e).
  - rewrite pow2_succ by lia. rewrite (pow2_nonpos (- (e + 1))) by lia.
    rewrite (pow2_nonpos (- e)) by lia. lia.
  - rewrite (pow2_nonpos (e + 1)) by lia. rewrite (pow2_nonpos e) by lia.
    rewrite (pow2_pred (- e)) by lia. replace (- e - 1) with (- (e + 1)) by lia. lia.
Qed.

Lemma scaled_shift (k : nat) :
  forall c n d e, scaled c n d (e + Z.of_nat k) <-> scaled (c * 2 ^ Z.of_nat k) n d e.
Proof.
  induction k as [|k IH]; intros c n d e.
  - cbn [Z.of_nat]. rewrite Z.add_0_r, Z.pow_0_r, Z.mul_1_r. reflexivity.
  - rewrite Nat2Z.inj_succ, Z.pow_succ_r by lia.
    replace (e + Z.succ (Z.of_nat k)) with (e + 1 + Z.of_nat k) by lia.
    rewrite IH, scaled_step.
    replace (2 * (c * 2 ^ Z.of_nat k)) with (c * (2 * 2 ^ Z.of_nat k)) by lia.
    reflexivity.
Qed.

Lemma at_least_power_scaled (n d e : Z) : at_least_power n d e <-> scaled 1 n d e.
Proof. unfold at_least_power, scaled. now rewrite Z.mul_1_l. Qed.

Lemma at_least_power_shift (n d e k : Z) :
  0 <= k ->
  (at_least_power n d (e + k) <-> 2 ^ k * (d * pow2 e) <= n * pow2 (- e)).
Proof.
  intro Hk. rewrite at_least_power_scaled.
  rewrite <- (Z2Nat.id k Hk) at 1. rewrite scaled_shift, Z2Nat.id by lia.
  unfold scaled. now rewrite Z.mul_1_l.
Qed.

Lemma at_least_power_mono (n d e1 e2 : Z) :
  0 <= n -> 0 < d -> e1 <= e2 -> at_least_power n d e2 -> at_least_power n d e1.
Proof.
  intros Hn Hd Hle H.
  replace e2 with (e1 + (e2 - e1)) in H by lia.
  rewrite at_least_power_shift in H by lia.
  unfold at_least_power.
  assert (0 < 2 ^ (e2 - e1)) by (apply Z.pow_pos_nonneg; lia).
  pose proof (pow2_pos e1). pose proof (pow2_pos (- e1)).
  assert (1 * (d * pow2 e1) <= 2 ^ (e2 - e1) * (d * pow2 e1))
    by (apply Z.mul_le_mono_nonneg_r; nia).
  lia.
Qed.

Lemma rounded_at_least (n d m c : Z) :
  0 < d -> 2 * Z.abs (m * d - n) <= d -> c * d <= n -> c <= m.
Proof. intros. nia. Qed.

Lemma rounded_at_most (n d m c : Z) :
  0 < d -> 2 * Z.abs (m * d - n) <= d -> n < c * d -> m <= c.
Proof. intros. nia. Qed.

Lemma nearest_double_spec (a b : Z) :
  b <> 0 ->
  match nearest_double a b with
  | Ok f => correctly_rounded a b f
  | Raise e => e = OverflowError /\ 2 ^ 1023 * Z.abs b <= Z.abs a
  end.
Proof.
  intro Hb. unfold nearest_double, correctly_rounded.
  set (n := Z.abs a). set (d := Z.abs b).
  assert (Hd : 0 < d) by (unfold d; lia).
  assert (Hn0 : 0 <= n) by (unfold n; lia).
  destruct (Z.eqb_spec n 0) as [Hz|Hnz].
  { cbn [negative mantissa exponent]. repeat split; lia. }
  assert (Hn : 0 < n) by lia.
  destruct (binade_spec n d Hn Hd) as [Hlow Hhigh].
  set (e := binade n d) in *.
  set (q := Z.max e (-1022) - 52).
  pose proof (pow2_pos q) as Hpq. pose proof (pow2_pos (- q)) as Hpnq.
  set (D := d * pow2 q). set (N := n * pow2 (- q)).
  assert (HD : 0 < D) by (unfold D; nia).
  assert (HN : 0 <= N) by (unfold N; nia).
  destruct (round_half_even_spec N D HN HD) as [Hclose Hm0].
  set (m := round_half_even N D) in *.
  assert (Hupper : m <= 2 ^ 53).
  { apply (rounded_at_most N D m (2 ^ 53) HD Hclose).
    apply Z.nle_gt. intro Hc.
    apply Hhigh. apply (at_least_power_mono n d (e + 1) (q + 53)).
    - lia.
    - lia.
    - unfold q. lia.
    - apply at_least_power_shift; [lia | exact Hc]. }
  assert (Hnormal : -1022 <= e -> 2 ^ 52 <= m).
  { intro He. apply (rounded_at_least N D m (2 ^ 52) HD Hclose).
    apply (at_least_power_shift n d q 52); [lia|].
    replace (q + 52) with e by (unfold q; lia). exact Hlow. }
  assert (Hsub : e < -1022 -> q = -1074) by (unfold q; lia).
  assert (Hlarge : 1023 <= e -> 2 ^ 1023 * d <= n).
  { intro He. apply (at_least_power_mono n d 1023 e) in Hlow; [|lia|lia|lia].
    unfold at_least_power in Hlow. change (pow2 1023) with (2 ^ 1023) in Hlow.
    change (pow2 (- (1023))) with 1 in Hlow. lia. }
  destruct (Z.eqb_spec m 0) as [Hm|Hm].
  { cbn [negative mantissa exponent]. repeat split; try lia.
    intros _. destruct (Z.le_gt_cases (-1022) e) as [He|He].
    - specialize (Hnormal He). lia.
    - specialize (Hsub He). rewrite Hm in Hclose. unfold N, D in Hclose.
      rewrite Hsub in Hclose. change (pow2 (-1074)) with 1 in Hclose.
      change (pow2 (- -1074)) with (2 ^ 1074) in Hclose.
      replace (2 ^ 1075) with (2 * 2 ^ 1074) by (now rewrite <- Z.pow_succ_r).
      lia. }
  destruct (Z.eqb_spec m (2 ^ 53)) as [Hmax|Hmax].
  - destruct (Z.ltb_spec 971 (q + 1)) as [Hover|Hfine].
    + split; [reflexivity|]. apply Hlarge. unfold q in Hover. lia.
    + cbn [negative mantissa exponent]. repeat split; try lia; try (unfold q; lia).
      intros _. unfold close_to. cbn [mantissa exponent]. fold n d.
      rewrite Hmax in Hclose. unfold N, D in Hclose.
      destruct (Z.le_gt_cases 0 q).
      * rewrite pow2_succ by lia. rewrite (pow2_nonpos (- (q + 1))) by lia.
        rewrite (pow2_nonpos (- q)) in Hclose by lia.
        replace (2 ^ 53) with (2 * 2 ^ 52) in Hclose by (now rewrite <- Z.pow_succ_r).
        lia.
      * rewrite (pow2_nonpos (q + 1)) by lia. rewrite (pow2_nonpos q) in Hclose by lia.
        rewrite (pow2_pred (- q)) in Hclose by lia.
        replace (- q - 1) with (- (q + 1)) in Hclose by lia.
        replace (2 ^ 53) with (2 * 2 ^ 52) in Hclose by (now rewrite <- Z.pow_succ_r).
        lia.
  - destruct (Z.ltb_spec 971 q) as [Hover|Hfine].
    + split; [reflexivity|]. apply Hlarge. unfold q in Hover. lia.
    + cbn [negative mantissa exponent]. repeat split; try lia; try (unfold q; lia).
      intros _. unfold close_to. cbn [mantissa exponent]. fold n d. exact Hclose.
Qed.
End Rounding.

(** [1 / 3], an odd integer above [2 ** 53] that is not a double, a
    negative quotient, a quotient too small for a double and one too
    large. *)
Example true_div_samples :
  true_div 1 3 = Ok (mkFloat false 6004799503160661 (-54)) /\
  true_div 9007199254740993 1 = Ok (mkFloat false 4503599627370496 1) /\
  true_div (-7) 2 = Ok (mkFloat true 7881299347898368 (-51)) /\
  true_div 1 (10 ^ 400) = Ok (mkFloat false 0 0) /\
  true_div (10 ^ 400) 1 = Raise OverflowError.
Proof. repeat split; vm_compute; reflexivity. Qed.

(** ** The performance score on any record *)

Lemma field_or_as_int (d : dict) (name : string) (default : Z) :
  (v <- dict_get (VDict d) name (VInt default) ;; as_int v) =
  match field_or d name default with
  | Some n => Ok n
  | None => Raise TypeError
  end.
Proof.
  unfold field_or, dict_get. destruct (dict_find d name) as [v|]; [destruct v|]; reflexivity.
Qed.

Lemma calculate_performance_fields (d : dict) (season : string) :
  calculate_performance (VDict d) season =
  match field_or d "Total Wins" 0, field_or d "Total Losses" 0,
        field_or d "Total Goals Scored" 0, field_or d "Total Games" 1 with
  | Some w, Some l, Some g, Some n => true_div (w - l + g) n
  | _, _, _, _ => Raise TypeError
  end.
Proof.
  assert (Hshape : calculate_performance (VDict d) season =
            (w <- (v <- dict_get (VDict d) "Total Wins" (VInt 0) ;; as_int v) ;;
             l <- (v <- dict_get (VDict d) "Total Losses" (VInt 0) ;; as_int v) ;;
             g <- (v <- dict_get (VDict d) "Total Goals Scored" (VInt 0) ;; as_int v) ;;
             n <- (v <- dict_get (VDict d) "Total Games" (VInt 1) ;; as_int v) ;;
             true_div (w - l + g) n)).
  { unfold calculate_performance, dict_get.
    destruct (dict_find d "Total Wins") as [v1|];
      destruct (dict_find d "Total Losses") as [v2|];
      destruct (dict_find d "Total Goals Scored") as [v3|];
      destruct (dict_find d "Total Games") as [v4|]; cbn [rbind];
      try destruct (as_int v1); cbn [rbind]; try destruct (as_int v2); cbn [rbind];
      try destruct (as_int v3); cbn [rbind]; try destruct (as_int v4); reflexivity. }
  rewrite Hshape, !field_or_as_int.
  destruct (field_or d "Total Wins" 0), (field_or d "Total Losses" 0),
    (field_or d "Total Goals Scored" 0), (field_or d "Total Games" 1); reflexivity.
Qed.

Lemma true_div_rounded (a b : Z) :
  b <> 0%Z ->
  match true_div a b with
  | Ok f => correctly_rounded a b f
  | Raise e => e = OverflowError /\ (2 ^ 1023 * Z.abs b <= Z.abs a)%Z
  end.
Proof.
  intro Hb. unfold true_div. destruct (Z.eqb_spec b 0) as [|_]; [contradiction|].
  now apply nearest_double_spec.
Qed.

(** X16.  [calculate_performance] counts an absent [Total Wins],
    [Total Losses] or [Total Goals Scored] as 0 and an absent [Total Games]
    as 1.  With numeric fields it is the true division of
    wins - losses + goals by games: [ZeroDivisionError] for 0 games;
    otherwise a double with the sign of the quotient and within half a
    unit in the last place of it, or [OverflowError], which needs a
    quotient of [2 ^ 1023] or more.  A field that is not a number raises
    [TypeError]. *)
Theorem calculate_performance_formula (d : dict) (season : string) :
  (forall w l g n,
      field_or d "Total Wins" 0 = Some w ->
      field_or d "Total Losses" 0 = Some l ->
      field_or d "Total Goals Scored" 0 = Some g ->
      field_or d "Total Games" 1 = Some n ->
      calculate_performance (VDict d) season = true_div (w - l + g) n /\
      (n = 0%Z -> calculate_performance (VDict d) season = Raise ZeroDivisionError) /\
      (n <> 0%Z ->
       match calculate_performance (VDict d) season with
       | Ok f => correctly_rounded (w - l + g) n f
       | Raise e => e = OverflowError /\
                    (2 ^ 1023 * Z.abs n <= Z.abs (w - l + g))%Z
       end)) /\
  (field_or d "Total Wins" 0 = None \/
   field_or d "Total Losses" 0 = None \/
   field_or d "Total Goals Scored" 0 = None \/
   field_or d "Total Games" 1 = None ->
   calculate_performance (VDict d) season = Raise TypeError).
Proof.
  rewrite calculate_performance_fields. split.
  - intros w l g n -> -> -> ->. split; [reflexivity|]. split.
    + intros ->. reflexivity.
    + apply true_div_rounded.
  - intros [-> | [-> | [-> | ->]]];
      repeat match goal with
             | |- context [match ?x with Some _ => _ | None => _ end] => destruct x
             end; reflexivity.
Qed.

Lemma calculate_performance_formula_witness :
  calculate_performance
    (VDict [ (KStr "Total Wins", VInt 12);
             (KStr "Total Losses", VInt 4);
             (KStr "Total Goals Scored", VInt 40);
             (KStr "Total Games", VInt 20) ]) "2023" =
  Ok (mkFloat false 5404319552844595 (-51)) /\
  correctly_rounded (12 - 4 + 40) 20 (mkFloat false 5404319552844595 (-51)).
Proof.
  pose proof (proj1 (calculate_performance_formula
                       [ (KStr "Total Wins", VInt 12);
                         (KStr "Total Losses", VInt 4);
                         (KStr "Total Goals Scored", VInt 40);
                         (KStr "Total Games", VInt 20) ] "2023") 12 4 40 20
                eq_refl eq_refl eq_refl eq_refl)%Z as [Hdiv [_ Hround]].
  split; [reflexivity|].
  apply (Hround ltac:(discriminate)).
Defined.

(** X17.  From the API answer to the score: for a team whose fixture and
    goal totals are integers and which has played at least one game, the
    score computed on the record [get_team_stats] builds is the true
    division of wins - losses + goals scored by games played: a double
    within half a unit in the last place of that quotient, and no error
    unless the quotient is [2 ^ 1023] or more. *)
Theorem performance_of_team_record (club_data record : value) (season : string)
        (played wins loses goals_for : Z) :
  normalize_team club_data = Ok record ->
  path club_data [KStr "fixtures"; KStr "played"; KStr "total"] = Ok (VInt played) ->
  path club_data [KStr "fixtures"; KStr "wins"; KStr "total"] = Ok (VInt wins) ->
  path club_data [KStr "fixtures"; KStr "loses"; KStr "total"] = Ok (VInt loses) ->
  path club_data [KStr "goals"; KStr "for"; KStr "total"; KStr "total"] = Ok (VInt goals_for) ->
  (0 < played)%Z ->
  match (stats_dict <- getitem record "Stats" ;; calculate_performance stats_dict season) with
  | Ok f => correctly_rounded (wins - loses + goals_for) played f
  | Raise e => e = OverflowError /\
               (2 ^ 1023 * played <= Z.abs (wins - loses + goals_for))%Z
  end.
Proof.
  intros Hrecord Hplayed Hwins Hloses Hgoals Hpos.
  destruct (normalize_team_reads club_data record Hrecord)
    as [[d [Hstats _]] [Hall _]].
  rewrite Forall_forall in Hall.
  assert (Hfield : forall name source n,
             In (name, source) team_sources ->
             path club_data source = Ok (VInt n) ->
             forall default, field_or d name default = Some n).
  { intros name source n Hin Hsource default.
    destruct (Hall _ Hin) as [v [Hv Hstat]]. cbn [fst snd] in Hv, Hstat.
    rewrite Hsource in Hv. injection Hv as <-.
    unfold stat in Hstat. rewrite (path2 _ _ _ _ Hstats) in Hstat.
    unfold field_or. cbn [getitem] in Hstat.
    destruct (dict_find d name) as [v|]; [|discriminate Hstat].
    now injection Hstat as ->. }
  rewrite Hstats. cbn [rbind]. rewrite calculate_performance_fields.
  rewrite (Hfield _ _ _ ltac:(unfold team_sources; do 3 right; now left) Hwins 0%Z),
    (Hfield _ _ _ ltac:(unfold team_sources; do 9 right; now left) Hloses 0%Z),
    (Hfield _ _ _ ltac:(unfold team_sources; do 13 right; now left) Hgoals 0%Z),
    (Hfield _ _ _ ltac:(unfold team_sources; now left) Hplayed 1%Z).
  pose proof (true_div_rounded (wins - loses + goals_for) played ltac:(lia)) as H.
  rewrite (Z.abs_eq played) in H by lia. exact H.
Qed.

Lemma performance_of_team_record_witness :
  (record <- normalize_team (sample_club_data 18 10 2 30 sample_lineups) ;;
   stats_dict <- getitem record "Stats" ;;
   calculate_performance stats_dict "2023") =
  Ok (mkFloat false 4753799606668857 (-51)) /\
  correctly_rounded (10 - 2 + 30) 18 (mkFloat false 4753799606668857 (-51)).
Proof.
  destruct (normalize_team (sample_club_data 18 10 2 30 sample_lineups))
    as [record|e] eqn:E; [|discriminate E].
  pose proof (performance_of_team_record (sample_club_data 18 10 2 30 sample_lineups)
                record "2023" 18 10 2 30 E eq_refl eq_refl eq_refl eq_refl
                ltac:(reflexivity)) as H.
  assert (Hvalue : (stats_dict <- getitem record "Stats" ;;
                    calculate_performance stats_dict "2023") =
                   Ok (mkFloat false 4753799606668857 (-51))).
  { vm_compute in E. injection E as <-. vm_compute. reflexivity. }
  cbn [rbind]. rewrite Hvalue in H. split; [exact Hvalue | exact H].
Defined.

(** ** The statistics fetch that finds nothing *)

Lemma get_team_stats_none_raises_witness :
  outcome (get_team_stats network_without_statistics
             "Manchester United" "England" "2023" "Premier League") = Raise TypeError.
Proof.
  apply (get_team_stats_none_raises network_without_statistics
           "Manchester United" "England" "2023" "Premier League" 39 (VInt 33));
    try reflexivity; discriminate.
Defined.

(** ** The first search string *)

Lemma split_space_single (s : string) :
  contains_space s = false <-> exists w, split_space s = [w].
Proof.
  induction s as [|c s IH]; cbn [contains_space split_space].
  - split; [eauto | reflexivity].
  - pose proof (split_space_not_nil s) as Hne.
    destruct (Ascii.eqb c " "); cbn [orb].
    + split; [discriminate|]. intros [w Hw].
      destruct (split_space s); [contradiction | discriminate Hw].
    + rewrite IH. destruct (split_space s) as [|w ws]; [contradiction|].
      split; intros [w' Hw']; injection Hw' as <- ->; eauto.
Qed.

Lemma first_and_last_joined (player_full_name first_name last_name : string) :
  first_and_last (split_space player_full_name) = Ok (first_name, last_name) ->
  first_name ++ " " ++ last_name = typed_or_spaced player_full_name.
Proof.
  intro Hnames.
  destruct (initial_search_name player_full_name) as [f [l [Hfl Hshape]]].
  rewrite Hnames in Hfl. injection Hfl as <- <-.
  unfold typed_or_spaced.
  destruct (contains_space player_full_name) eqn:Hc.
  - destruct (split_space player_full_name) as [|a [|b rest]] eqn:E; try exact Hshape.
    assert (Hsingle : contains_space player_full_name = false)
      by (apply split_space_single; eauto).
    congruence.
  - apply split_space_single in Hc. destruct Hc as [w Hw].
    rewrite Hw in Hshape. apply Hshape.
Qed.

Lemma bind_lift_ok {A B} (a : A) (f : A -> M B) : bind (lift (Ok a)) f = f a.
Proof. unfold lift. cbn [bind]. now destruct (f a). Qed.

(** X18.  With a valid league, [get_player_stats] begins with the search
    for the input as it was typed when it has a space in it, and for a space
    followed by the input when it is a single word: its requests start with
    those of [get_player_stats_from_api] on that name, the first one asking
    for its transliteration. *)
Theorem first_search_name
        (requests_get : request -> result response) (unidecode : string -> string)
        (player_full_name season league_name : string) (league_id : Z) :
  league_get LEAGUE_IDS league_name = Some league_id ->
  league_id <> 0%Z ->
  (exists later,
      requests_sent (get_player_stats requests_get unidecode
                       player_full_name season league_name) =
      (requests_sent (get_player_stats_from_api requests_get unidecode
                        (typed_or_spaced player_full_name) season league_id) ++ later)%list) /\
  (unidecode (typed_or_spaced player_full_name) <> "" ->
   hd_error (requests_sent (get_player_stats requests_get unidecode
                              player_full_name season league_name)) =
   Some (players_request season (unidecode (typed_or_spaced player_full_name)) league_id)) /\
  (contains_space player_full_name = false ->
   typed_or_spaced player_full_name = String " " player_full_name) /\
  (contains_space player_full_name = true ->
   typed_or_spaced player_full_name = player_full_name).
Proof.
  intros Hleague Hid.
  destruct (initial_search_name player_full_name) as [first_name [last_name [Hnames _]]].
  pose proof (first_and_last_joined _ _ _ Hnames) as Hjoined.
  assert (Hsent : exists later,
      requests_sent (get_player_stats requests_get unidecode
                       player_full_name season league_name) =
      (requests_sent (get_player_stats_from_api requests_get unidecode
                        (typed_or_spaced player_full_name) season league_id) ++ later)%list).
  { unfold get_player_stats. rewrite Hleague.
    destruct (Z.eqb_spec league_id 0) as [|_]; [contradiction|].
    rewrite Hnames, bind_lift_ok, Hjoined, bind_sent. eexists. reflexivity. }
  split; [exact Hsent|]. split; [|split].
  - intro Hne. destruct Hsent as [later ->].
    unfold get_player_stats_from_api.
    destruct (unidecode (typed_or_spaced player_full_name)) as [|a rest] eqn:E;
      [contradiction|].
    pose proof (search_loop_sent_first requests_get unidecode season league_id a rest) as H.
    destruct (requests_sent (search_loop requests_get unidecode season league_id
                               (String a rest))) as [|r sent]; [discriminate H|].
    exact H.
  - unfold typed_or_spaced. now intros ->.
  - unfold typed_or_spaced. now intros ->.
Qed.

Lemma first_search_name_witness :
  hd_error (requests_sent (get_player_stats network_empty unidecode_sample
                             "Haaland" "2023" "Premier League")) =
  Some (players_request "2023" " Haaland" 39).
Proof.
  refine (proj1 (proj2 (first_search_name network_empty unidecode_sample
                          "Haaland" "2023" "Premier League" 39 eq_refl _)) _);
    discriminate.
Defined.
